(** * Weather MLOps pipeline: feature transform, schema validator, drift monitor

    A shallow embedding of
      - [airflow/dags/scripts/transform.py]  (feature engineering),
      - [airflow/dags/scripts/validate.py]   (schema / quality gate),
      - [api/app/main.py]                    (inference service and drift monitor),
    followed by the properties established about them.

    Conventions.
      - A pandas cell is an [option]: [None] is the missing marker (NaN, NaT),
        [Some x] a value that is present.
      - Python code that prints, raises or calls [sys.exit] is written in the
        monad [Proc], which threads a state and ends in an [outcome].
      - Numbers of the service are IEEE binary64 values ([float]), as numpy's
        [float64] scalars are: dividing by zero gives an infinity or a NaN and
        raises nothing. *)

From Stdlib Require Import List ZArith Floats Lia Bool.
From stdpp Require Import gmap strings list fin_maps sorting.
Import ListNotations.

Open Scope Z_scope.

(** ** Python control flow: normal return, exception, [sys.exit] *)

Module Py.

(** The exceptions the three scripts can meet. [HTTPException] is fastapi's;
    its detail is either a literal or [str(e)] of a caught exception. *)
Inductive exn : Type :=
| KeyError (missing : list string)
| TypeError (msg : string)
| ValueError (msg : string)
| ModelError (msg : string)
| HTTPException (status_code : Z) (detail : detail)
with detail : Type :=
| Literal (s : string)
| StrOf (e : exn).

(** How a call ends. [SystemExit] derives from [BaseException], not from
    [Exception]: an [except Exception] clause does not catch it. *)
Inductive outcome (A : Type) : Type :=
| Return (a : A)
| Raise (e : exn)
| SysExit (code : Z).
Arguments Return {A} a.
Arguments Raise {A} e.
Arguments SysExit {A} code.

(** A procedure over a state [S] (a log of printed lines, a metrics registry). *)
Definition Proc (S A : Type) : Type := S -> S * outcome A.

Definition ret {S A} (a : A) : Proc S A := fun s => (s, Return a).

Definition bind {S A B} (c : Proc S A) (k : A -> Proc S B) : Proc S B :=
  fun s =>
    match c s with
    | (s', Return a) => k a s'
    | (s', Raise e) => (s', Raise e)
    | (s', SysExit n) => (s', SysExit n)
    end.

Definition raise {S A} (e : exn) : Proc S A := fun s => (s, Raise e).
Definition sys_exit {S A} (code : Z) : Proc S A := fun s => (s, SysExit code).
Definition modify {S} (f : S -> S) : Proc S unit := fun s => (f s, Return tt).
Definition lift {S A} (o : outcome A) : Proc S A := fun s => (s, o).

(** [try: body except Exception as e: handler(e)] *)
Definition try_except {S A} (body : Proc S A) (handler : exn -> Proc S A) : Proc S A :=
  fun s =>
    match body s with
    | (s', Raise e) => handler e s'
    | r => r
    end.

(** [with cm: body]: [exit] runs however [body] ends. *)
Definition with_exit {S A} (body : Proc S A) (exit : S -> S) : Proc S A :=
  fun s => let '(s', o) := body s in (exit s', o).

Definition when {S} (b : bool) (c : Proc S unit) : Proc S unit :=
  if b then c else ret tt.

End Py.

Declare Scope proc_scope.
Delimit Scope proc_scope with proc.
Notation "'let!' x ':=' c 'in' k" := (Py.bind c (fun x => k))
  (at level 10, x name, c at level 100, k at level 200) : proc_scope.
Notation "c ';;' k" := (Py.bind c (fun _ => k))
  (at level 100, k at level 200, right associativity) : proc_scope.

(** ** Numbers of a frame

    The arithmetic the rolling statistics need. A cell of a numeric column is
    a number of [F] or missing; the column operations of the transform are
    written once over this interface, and what they leave missing is what
    pandas leaves missing by position (a shifted-in row, a window that is not
    full or holds a missing cell). [float_number] is the instance numpy
    computes with. *)

Class Number (F : Type) : Type := {
  nzero : F;
  nadd : F -> F -> F;
  nsub : F -> F -> F;
  nmul : F -> F -> F;
  ndiv : F -> F -> F;
  nsqrt : F -> F;
  of_count : nat -> F
}.

(** [float(n)] for a length or a counter: exact below [2^53]. *)
Definition float_of_nat (n : nat) : float :=
  PrimFloat.of_uint63 (Uint63.of_Z (Z.of_nat n)).

#[export] Instance float_number : Number float := {|
  nzero := 0%float;
  nadd := PrimFloat.add;
  nsub := PrimFloat.sub;
  nmul := PrimFloat.mul;
  ndiv := PrimFloat.div;
  nsqrt := PrimFloat.sqrt;
  of_count := float_of_nat
|}.

(** ** The pandas operations the scripts call *)

Module Pandas.

Section Column.
Context {A : Type}.

Definition isnull (c : option A) : bool :=
  match c with None => true | Some _ => false end.

Definition notnull (c : option A) : bool := negb (isnull c).

(** [s.iloc[i]] of a column aligned with the frame; out of range cells do
    not occur (every column has the frame's length). *)
Definition iloc (s : list (option A)) (i : nat) : option A :=
  match s !! i with Some c => c | None => None end.

(** [s.shift(periods)]: the values move down by [periods] rows (up when
    negative); the vacated rows are missing; the length is kept. *)
Definition shift (periods : Z) (s : list (option A)) : list (option A) :=
  let n := length s in
  if 0 <=? periods
  then take n (replicate (Z.to_nat periods) None ++ s)
  else drop (Z.to_nat (- periods)) s
         ++ replicate (Nat.min (Z.to_nat (- periods)) n) None.

(** The present values of a window, when all of them are present. *)
Fixpoint observations (w : list (option A)) : option (list A) :=
  match w with
  | [] => Some []
  | None :: _ => None
  | Some x :: w' =>
      match observations w' with
      | Some xs => Some (x :: xs)
      | None => None
      end
  end.
End Column.

(** [s.rolling(window=w).agg()], [min_periods] left at its default (the
    window size): row [i] aggregates rows [i-w+1 .. i] and is missing when
    the window reaches before the first row or holds a missing value. *)
Definition rolling_at {A B} (window : nat) (agg : list A -> B)
    (s : list (option A)) (i : nat) : option B :=
  if (S i <? window)%nat then None
  else
    match observations (take window (drop (S i - window) s)) with
    | Some xs => Some (agg xs)
    | None => None
    end.

Definition rolling {A B} (window : nat) (agg : list A -> B)
    (s : list (option A)) : list (option B) :=
  map (rolling_at window agg s) (seq 0 (length s)).

Section Aggregations.
Context {F : Type} `{Number F}.

Definition sum (xs : list F) : F := fold_left nadd xs nzero.

(** The aggregates of a window, by their defining formulas. pandas reaches
    a rolling aggregate by a running update along the column, whose rounding
    can differ from the formula's in the last place; the two agree wherever
    the sums are exact. *)

(** [.mean()] *)
Definition mean (xs : list F) : F := ndiv (sum xs) (of_count (length xs)).

(** [.std()], [ddof=1]: the sample standard deviation. *)
Definition std (xs : list F) : F :=
  let m := mean xs in
  let sq := map (fun x => nmul (nsub x m) (nsub x m)) xs in
  nsqrt (ndiv (sum sq) (of_count (length xs - 1))).
End Aggregations.

(** [Series.dt] accessors of a [datetime64[ns]] value (nanoseconds since
    1970-01-01T00:00:00). *)
Definition ns_per_hour : Z := 3600 * 1000000000.
Definition ns_per_day : Z := 24 * ns_per_hour.

Definition dt_hour (t : Z) : Z := (t / ns_per_hour) mod 24.

(** Monday is 0; 1970-01-01 was a Thursday. *)
Definition dt_dayofweek (t : Z) : Z := (t / ns_per_day + 3) mod 7.

(** Month of the proleptic Gregorian calendar, by counting days in 400-year
    eras that start on 1 March. *)
Definition dt_month (t : Z) : Z :=
  let z := t / ns_per_day + 719468 in
  let era := z / 146097 in
  let doe := z - era * 146097 in
  let yoe := (doe - doe / 1460 + doe / 36524 - doe / 146096) / 365 in
  let doy := doe - (365 * yoe + yoe / 4 - yoe / 100) in
  let mp := (5 * doy + 2) / 153 in
  if mp <? 10 then mp + 3 else mp - 9.

(** [df.take(indexer)]: the rows at the positions of [indexer], in its order. *)
Definition take_rows {R} (df : list R) (indexer : list nat) : list R :=
  omap (fun i => df !! i) indexer.

(** [df.sort_values(by)] on one column: pandas computes an indexer with
    [argsort(kind)] on the key column and takes the rows in that order. The
    sorting algorithm is the library's; transform.py passes no [kind], which
    selects pandas' default. *)
Definition sort_values {R K} (argsort : list K -> list nat) (by_ : R -> K)
    (df : list R) : list R :=
  take_rows df (argsort (map by_ df)).

(** Ascending order of a [datetime64] key, [NaT] last. *)
Definition key_le (a b : option Z) : bool :=
  match a, b with
  | Some x, Some y => x <=? y
  | Some _, None => true
  | None, Some _ => false
  | None, None => true
  end.

(** An indexer by straight insertion: position [i] goes behind every position
    already placed whose key is not larger, so equal keys keep their input
    order. This is what [kind='stable'] computes. *)
Fixpoint insert_position (keys : list (option Z)) (i : nat) (placed : list nat)
    : list nat :=
  match placed with
  | [] => [i]
  | j :: rest =>
      if key_le (iloc keys j) (iloc keys i)
      then j :: insert_position keys i rest
      else i :: j :: rest
  end.

Definition argsort_stable (keys : list (option Z)) : list nat :=
  fold_left (fun placed i => insert_position keys i placed)
            (seq 0 (length keys)) [].

(** What every [kind] of [argsort] returns: the positions of the column, each
    once, in ascending order of their keys. *)
Definition position_le (keys : list (option Z)) (i j : nat) : Prop :=
  key_le (iloc keys i) (iloc keys j) = true.

Definition sorting_indexer (keys : list (option Z)) (indexer : list nat) : Prop :=
  indexer ≡ₚ seq 0 (length keys) /\ Sorted (position_le keys) indexer.

End Pandas.

(** ** transform.py *)

Module Transform.
Import Pandas.

Section Frame.
Context {F : Type} `{Number F}.

(** One row of the raw CSV, with the columns extract.py writes
    (extract.py, the [record] dictionary). [dt_txt] and [collection_time]
    are held as parsed by [pd.to_datetime]. *)
Record RawObservation : Type := {
  dt : option Z;
  dt_txt : option Z;
  temp : option F;
  feels_like : option F;
  pressure : option F;
  humidity : option F;
  weather_main : option string;
  weather_description : option string;
  wind_speed : option F;
  wind_deg : option F;
  clouds_all : option F;
  collection_time : option Z
}.

(** One row of the frame after feature engineering. *)
Record FeatureRow : Type := {
  raw : RawObservation;
  hour : option Z;
  day_of_week : option Z;
  month : option Z;
  temp_lag_1 : option F;
  humidity_lag_1 : option F;
  temp_rolling_mean_3 : option F;
  temp_rolling_std_3 : option F;
  target_temp : option F
}.

Definition raw_notnull (r : RawObservation) : bool :=
  notnull (dt r) && notnull (dt_txt r) && notnull (temp r)
  && notnull (feels_like r) && notnull (pressure r) && notnull (humidity r)
  && notnull (weather_main r) && notnull (weather_description r)
  && notnull (wind_speed r) && notnull (wind_deg r) && notnull (clouds_all r)
  && notnull (collection_time r).

(** No cell of the row is missing: the rows [dropna()] keeps. *)
Definition row_notnull (r : FeatureRow) : bool :=
  raw_notnull (raw r)
  && notnull (hour r) && notnull (day_of_week r) && notnull (month r)
  && notnull (temp_lag_1 r) && notnull (humidity_lag_1 r)
  && notnull (temp_rolling_mean_3 r) && notnull (temp_rolling_std_3 r)
  && notnull (target_temp r).

(** [df.dropna()] *)
Definition dropna (df : list FeatureRow) : list FeatureRow :=
  filter (fun r => row_notnull r = true) df.

(** transform.py, lines 37-52, on the sorted frame: the new columns are
    computed column-wise and sit in the rows by position. *)
Definition feature_engineering (df : list RawObservation) : list FeatureRow :=
  let temp_lag := shift 1 (map temp df) in
  let humidity_lag := shift 1 (map humidity df) in
  let rolling_mean := rolling 3 mean (map temp df) in
  let rolling_std := rolling 3 std (map temp df) in
  let target := shift (-1) (map temp df) in
  imap (fun i r =>
          {| raw := r;
             hour := dt_hour <$> dt_txt r;
             day_of_week := dt_dayofweek <$> dt_txt r;
             month := dt_month <$> dt_txt r;
             temp_lag_1 := iloc temp_lag i;
             humidity_lag_1 := iloc humidity_lag i;
             temp_rolling_mean_3 := iloc rolling_mean i;
             temp_rolling_std_3 := iloc rolling_std i;
             target_temp := iloc target i |}) df.

(** transform.py, lines 32-55: sort by [dt_txt], engineer, drop. *)
Definition transform_frame (argsort : list (option Z) -> list nat)
    (df : list RawObservation) : list FeatureRow :=
  dropna (feature_engineering (sort_values argsort dt_txt df)).

(** What the script prints and writes. *)
Inductive line : Type :=
| NoRawDataFiles
| TransformingFile
| TransformationComplete
| GeneratingReport
| LoggingReport
| TransformationFailed (e : Py.exn).

Inductive event : Type :=
| Print (l : line)
| ToCsv (df_clean : list FeatureRow).

Definition print (l : line) : Py.Proc (list event) unit :=
  Py.modify (fun trace => trace ++ [Print l]).

(** [df_clean.to_csv(output_file, index=False)] *)
Definition to_csv (df_clean : list FeatureRow) : Py.Proc (list event) unit :=
  Py.modify (fun trace => trace ++ [ToCsv df_clean]).

(** What the documentation stage (lines 66-76) asks of MLflow and of the
    file system: each call succeeds or raises.
    - [start_run]: lines 66-69, up to entering the run;
    - [report]: lines 71-73 on a frame that has rows, building the report
      and writing it;
    - [log_artifact]: line 76;
    - [end_run]: leaving the [with] block, which closes the run whether the
      block raised or not. *)
Record Documentation : Type := {
  start_run : option Py.exn;
  report : list FeatureRow -> option Py.exn;
  log_artifact : option Py.exn;
  end_run : option Py.exn
}.

Definition attempt (call : option Py.exn) : Py.Proc (list event) unit :=
  match call with
  | None => Py.ret tt
  | Some e => Py.raise e
  end.

(** [ProfileReport(df_clean, ...)] and [profile.to_file(report_path)]:
    ydata_profiling refuses a frame without rows. *)
Definition profile_report (doc : Documentation) (df_clean : list FeatureRow)
  : Py.Proc (list event) unit :=
  match df_clean with
  | [] => Py.raise (Py.ValueError
                      "DataFrame is empty. Please provide a non-empty DataFrame.")
  | _ :: _ => attempt (report doc df_clean)
  end.

(** [with mlflow.start_run(): body]: the run is closed on the way out, and
    an exception of the closing replaces what the body raised. *)
Definition with_run (doc : Documentation) (body : Py.Proc (list event) unit)
  : Py.Proc (list event) unit :=
  fun trace =>
    match body trace with
    | (trace', Py.SysExit n) => (trace', Py.SysExit n)
    | (trace', o) =>
        match end_run doc with
        | None => (trace', o)
        | Some e => (trace', Py.Raise e)
        end
    end.

(** [transform_data]. [latest_file] is the newest raw file as [pd.read_csv]
    returns it, [None] when the directory holds none. The documentation
    stage runs after the processed file is written, inside the same [try]. *)
Definition transform_data (argsort : list (option Z) -> list nat)
    (doc : Documentation)
    (latest_file : option (list RawObservation))
  : Py.Proc (list event) unit :=
  match latest_file with
  | None => (print NoRawDataFiles ;; Py.sys_exit 1)%proc
  | Some df =>
      (print TransformingFile ;;
       Py.try_except
         (let df_clean := transform_frame argsort df in
          to_csv df_clean ;;
          print TransformationComplete ;;
          attempt (start_run doc) ;;
          with_run doc
            (print GeneratingReport ;;
             profile_report doc df_clean ;;
             print LoggingReport ;;
             attempt (log_artifact doc)))
         (fun e => print (TransformationFailed e) ;; Py.sys_exit 1))%proc
  end.
End Frame.

Arguments RawObservation F : clear implicits.
Arguments FeatureRow F : clear implicits.
Arguments Documentation F : clear implicits.
End Transform.

(** ** validate.py *)

Module Validate.
Import Pandas.

(** A column of the frame [pd.read_csv] returns. Numeric text becomes a
    [Float64] column; text stays an object column, and an empty cell is
    missing in both. [IsoTime] is the object column of ISO-8601 timestamps that
    extract.py writes with [datetime.now().isoformat()]: each cell is given by
    the instant it denotes (nanoseconds since the epoch), the order of the
    texts being the order of the instants. [Object] is an object column of
    text that [pd.to_datetime] does not read as a timestamp. *)
Inductive Column : Type :=
| Float64 (cells : list (option float))
| Object (cells : list (option string))
| IsoTime (cells : list (option Z)).

(** The frame: its columns by name, in file order. *)
Definition DataFrame : Type := list (string * Column).

Definition columns (df : DataFrame) : list string := map fst df.

(** [col in df.columns] *)
Definition has_column (df : DataFrame) (col : string) : bool :=
  bool_decide (col ∈ columns df).

(** [df[col]] *)
Definition getitem (df : DataFrame) (col : string) : Py.outcome Column :=
  match list_find (fun c => fst c = col) df with
  | Some (_, (_, c)) => Py.Return c
  | None => Py.Raise (Py.KeyError [col])
  end.

(** [df[cols]]: the sub-frame, or [KeyError] with the names not found. *)
Definition getitem_columns (df : DataFrame) (cols : list string)
  : Py.outcome DataFrame :=
  match List.filter (fun col => negb (has_column df col)) cols with
  | [] => Py.Return (List.filter (fun c => bool_decide (fst c ∈ cols)) df)
  | not_found => Py.Raise (Py.KeyError not_found)
  end.

(** [s.isnull().sum()] *)
Definition null_count (c : Column) : nat :=
  match c with
  | Float64 cells => length (List.filter isnull cells)
  | Object cells => length (List.filter isnull cells)
  | IsoTime cells => length (List.filter isnull cells)
  end.

(** [df.isnull().any().any()] *)
Definition any_null (df : DataFrame) : bool :=
  existsb (fun c => (0 <? null_count (snd c))%nat) df.

(** [null_counts[null_counts > 0]] *)
Definition null_counts (df : DataFrame) : list (string * nat) :=
  List.filter (fun c => (0 <? snd c)%nat)
              (map (fun c => (fst c, null_count (snd c))) df).

(** A number as a count of nanoseconds, the fraction cut off; nothing for
    NaN, the infinities and a count that an [int64] does not hold. *)
Definition float_to_ns (x : float) : option Z :=
  match Prim2SF x with
  | S754_zero _ => Some 0
  | S754_finite s m e =>
      let v := if 0 <=? e then Zpos m * 2 ^ e else Zpos m / 2 ^ (- e) in
      if v <? 2 ^ 63 then Some (if s then - v else v) else None
  | S754_infinity _ | S754_nan => None
  end.

Definition float_max (xs : list float) : option float :=
  match xs with
  | [] => None
  | x :: xs' => Some (fold_left (fun a b => if PrimFloat.ltb a b then b else a) xs' x)
  end.

Definition Z_max (ts : list Z) : option Z :=
  match ts with
  | [] => None
  | t :: ts' => Some (fold_left Z.max ts' t)
  end.

(** [pd.to_datetime(s.max())]. [max] skips missing cells in a numeric column;
    in an object column it compares them with the texts and raises. A number
    is converted as nanoseconds since the epoch, and one that an [int64] does
    not hold becomes [NaT]; a text that is no timestamp is refused. The result
    is [None] for [NaT]. *)
Definition latest_datetime (c : Column) : Py.outcome (option Z) :=
  match c with
  | Float64 cells =>
      match float_max (omap id cells) with
      | None => Py.Return None
      | Some x =>
          if PrimFloat.is_nan x then Py.Return None
          else Py.Return (float_to_ns x)
      end
  | Object cells =>
      if forallb isnull cells then Py.Return None
      else if existsb isnull cells
           then Py.Raise (Py.TypeError "'>=' not supported between 'str' and 'float'")
           else Py.Raise (Py.ValueError "unknown datetime string format")
  | IsoTime cells =>
      if forallb isnull cells then Py.Return None
      else if existsb isnull cells
           then Py.Raise (Py.TypeError "'>=' not supported between 'str' and 'float'")
           else Py.Return (Z_max (omap id cells))
  end.

Definition critical_cols : list string :=
  ["temp"; "humidity"; "pressure"; "wind_speed"]%string.

Definition expected_cols : list string :=
  ["dt"; "temp"; "humidity"; "pressure"; "wind_speed"; "collection_time"]%string.

(** 24 hours, in nanoseconds. *)
Definition max_age : Z := 86400 * 1000000000.

(** What the script prints. *)
Inductive line : Type :=
| NoDataFiles
| ValidatingFile
| NullValuesFound
| NullCounts (counts : list (string * nat))
| CriticalNulls
| MissingExpectedColumns (missing_cols : list string)
| DataTooOld (age : Z)
| ValidationPassed
| ValidationFailed (e : Py.exn).

Definition print (l : line) : Py.Proc (list line) unit :=
  Py.modify (fun log => log ++ [l]).

(** [missing_cols] of step 2. *)
Definition missing_cols (df : DataFrame) : list string :=
  List.filter (fun col => negb (has_column df col)) expected_cols.

(** The columns of the frame among the critical ones, and whether one of
    them holds a missing cell. *)
Definition critical_frame (df : DataFrame) : DataFrame :=
  List.filter (fun c => bool_decide (fst c ∈ critical_cols)) df.

Definition critical_null (df : DataFrame) : bool := any_null (critical_frame df).

(** The two lines printed when a cell is missing anywhere. *)
Definition null_warning (df : DataFrame) : list line :=
  if any_null df then [NullValuesFound; NullCounts (null_counts df)] else [].

(** The line printed when the newest of the instants [ts] is more than 24
    hours before [now]. *)
Definition stale_warning (ts : list Z) (now : Z) : list line :=
  match Z_max ts with
  | Some t => if max_age <? now - t then [DataTooOld (now - t)] else []
  | None => []
  end.

(** Step 1, lines 24-31. *)
Definition check_nulls (df : DataFrame) : Py.Proc (list line) unit :=
  Py.when (any_null df)
    (print NullValuesFound ;;
     print (NullCounts (null_counts df)) ;;
     let! critical := Py.lift (getitem_columns df critical_cols) in
     Py.when (any_null critical)
       (print CriticalNulls ;; Py.sys_exit 1))%proc.

(** Step 2, lines 34-39. *)
Definition check_schema (df : DataFrame) : Py.Proc (list line) unit :=
  Py.when (negb (bool_decide (missing_cols df = [])))
    (print (MissingExpectedColumns (missing_cols df)) ;; Py.sys_exit 1)%proc.

(** Step 3, lines 43-50: the age is only reported. *)
Definition check_freshness (df : DataFrame) (now : Z) : Py.Proc (list line) unit :=
  Py.when (has_column df "collection_time")
    (let! collection_time := Py.lift (getitem df "collection_time") in
     let! latest_time := Py.lift (latest_datetime collection_time) in
     match latest_time with
     | Some t => let age := now - t in
                 Py.when (max_age <? age) (print (DataTooOld age))
     | None => Py.ret tt
     end)%proc.

(** [validate_data]. [latest_file] is the newest raw file as [pd.read_csv]
    returns it, [None] when the directory holds none; [now] is
    [datetime.now()]. Returning normally is passing; every failure is
    [sys.exit(1)]. *)
Definition validate_data (latest_file : option DataFrame) (now : Z)
  : Py.Proc (list line) unit :=
  match latest_file with
  | None => (print NoDataFiles ;; Py.sys_exit 1)%proc
  | Some df =>
      (print ValidatingFile ;;
       Py.try_except
         (check_nulls df ;;
          check_schema df ;;
          check_freshness df now ;;
          print ValidationPassed)
         (fun e => print (ValidationFailed e) ;; Py.sys_exit 1))%proc
  end.

End Validate.

(** ** api/app/main.py *)

Module Api.

(** [PredictionRequest] *)
Record PredictionRequest : Type := {
  temp : float;
  humidity : float;
  pressure : float;
  wind_speed : float;
  clouds_all : float;
  hour : Z;
  day_of_week : Z;
  month : Z;
  temp_lag_1 : float;
  temp_rolling_mean_3 : float;
  temp_rolling_std_3 : float
}.

Record PredictionResponse : Type := { predicted_temp : float }.

(** A cell of the one-row frame [pd.DataFrame([request.dict()])]: a
    [float64] or an [int64] scalar. *)
Inductive scalar : Type :=
| Float (x : float)
| Int (n : Z).

(** The one-row frame, by column. *)
Definition Features : Type := list (string * scalar).

(** [pd.DataFrame([request.dict()])] *)
Definition request_frame (request : PredictionRequest) : Features :=
  [ ("temp", Float (temp request));
    ("humidity", Float (humidity request));
    ("pressure", Float (pressure request));
    ("wind_speed", Float (wind_speed request));
    ("clouds_all", Float (clouds_all request));
    ("hour", Int (hour request));
    ("day_of_week", Int (day_of_week request));
    ("month", Int (month request));
    ("temp_lag_1", Float (temp_lag_1 request));
    ("temp_rolling_mean_3", Float (temp_rolling_mean_3 request));
    ("temp_rolling_std_3", Float (temp_rolling_std_3 request)) ]%string.

(** [features[col].iloc[0]] when [col in features.columns]. *)
Definition column_value (features : Features) (col : string) : option scalar :=
  snd <$> List.find (fun c => String.eqb (fst c) col) features.

(** The [float64] an integer scalar becomes in arithmetic with a float: the
    nearest float, ties to even. (Python refuses an integer of [2^1024] or
    more; here it gives infinity.) *)
Definition float_of_Z (n : Z) : float :=
  SF2Prim (binary_normalize prec emax n 0 false).

Definition to_float64 (v : scalar) : float :=
  match v with
  | Float x => x
  | Int n => float_of_Z n
  end.

(** An entry of [training_stats]. *)
Record Stats : Type := { mean : float; std : float }.

(** The loaded model: [model.predict(features)[0]], which may raise. *)
Definition Model : Type := Features -> Py.outcome float.

(** The module's globals [model] and [training_stats]; a dict iterates in
    insertion order. *)
Record Service : Type := {
  model : option Model;
  training_stats : list (string * Stats)
}.

(** The globals as the module is imported. *)
Definition unloaded : Service := {| model := None; training_stats := [] |}.

(** [load_model], run at startup. [fetched] is how
    [mlflow.sklearn.load_model(MODEL_URI)] ends; when it raises, the handler
    prints and both globals stay as they were. *)
Definition load_model (fetched : Py.outcome Model) (svc : Service) : Service :=
  match fetched with
  | Py.Return m =>
      {| model := Some m;
         training_stats :=
           [ ("temp", {| mean := 20; std := 5 |});
             ("humidity", {| mean := 60; std := 15 |}) ]%string%float |}
  | _ => svc
  end.

(** The prometheus registry: counters, the latency histogram (by its number
    of observations) and the two drift gauges, [FEATURE_MEAN_SHIFT] by its
    [feature_name] label. *)
Record Metrics : Type := {
  PREDICTION_COUNT : nat;
  PREDICTION_LATENCY : nat;
  PREDICTION_ERRORS : nat;
  OOD_RATIO : float;
  FEATURE_MEAN_SHIFT : gmap string float
}.

(** A fresh registry: gauges start at 0, no label has a child yet. *)
Definition registry : Metrics :=
  {| PREDICTION_COUNT := 0; PREDICTION_LATENCY := 0; PREDICTION_ERRORS := 0;
     OOD_RATIO := 0%float; FEATURE_MEAN_SHIFT := ∅ |}.

Definition inc_count (m : Metrics) : Metrics :=
  {| PREDICTION_COUNT := S (PREDICTION_COUNT m);
     PREDICTION_LATENCY := PREDICTION_LATENCY m;
     PREDICTION_ERRORS := PREDICTION_ERRORS m;
     OOD_RATIO := OOD_RATIO m;
     FEATURE_MEAN_SHIFT := FEATURE_MEAN_SHIFT m |}.

Definition observe_latency (m : Metrics) : Metrics :=
  {| PREDICTION_COUNT := PREDICTION_COUNT m;
     PREDICTION_LATENCY := S (PREDICTION_LATENCY m);
     PREDICTION_ERRORS := PREDICTION_ERRORS m;
     OOD_RATIO := OOD_RATIO m;
     FEATURE_MEAN_SHIFT := FEATURE_MEAN_SHIFT m |}.

Definition inc_errors (m : Metrics) : Metrics :=
  {| PREDICTION_COUNT := PREDICTION_COUNT m;
     PREDICTION_LATENCY := PREDICTION_LATENCY m;
     PREDICTION_ERRORS := S (PREDICTION_ERRORS m);
     OOD_RATIO := OOD_RATIO m;
     FEATURE_MEAN_SHIFT := FEATURE_MEAN_SHIFT m |}.

Definition set_ood_ratio (x : float) (m : Metrics) : Metrics :=
  {| PREDICTION_COUNT := PREDICTION_COUNT m;
     PREDICTION_LATENCY := PREDICTION_LATENCY m;
     PREDICTION_ERRORS := PREDICTION_ERRORS m;
     OOD_RATIO := x;
     FEATURE_MEAN_SHIFT := FEATURE_MEAN_SHIFT m |}.

(** [FEATURE_MEAN_SHIFT.labels(feature_name=col).set(x)] *)
Definition set_mean_shift (col : string) (x : float) (m : Metrics) : Metrics :=
  {| PREDICTION_COUNT := PREDICTION_COUNT m;
     PREDICTION_LATENCY := PREDICTION_LATENCY m;
     PREDICTION_ERRORS := PREDICTION_ERRORS m;
     OOD_RATIO := OOD_RATIO m;
     FEATURE_MEAN_SHIFT := <[col := x]> (FEATURE_MEAN_SHIFT m) |}.

(** [health_check] *)
Record Health : Type := { status : string; model_loaded : bool }.

Definition health_check (svc : Service) : Health :=
  match model svc with
  | Some _ => {| status := "healthy"; model_loaded := true |}
  | None => {| status := "unhealthy"; model_loaded := false |}
  end.

(** [abs((val - stats['mean']) / stats['std'])] *)
Definition z_score (val : float) (stats : Stats) : float :=
  PrimFloat.abs ((val - mean stats) / std stats).

(** One turn of the loop over [training_stats.items()], lines 96-104, on the
    local [ood_count] and the registry. *)
Definition drift_step (features : Features) (acc : nat * Metrics)
    (item : string * Stats) : nat * Metrics :=
  let '(ood_count, m) := acc in
  let '(col, stats) := item in
  match column_value features col with
  | Some val =>
      let z := z_score (to_float64 val) stats in
      (if PrimFloat.ltb 3 z then S ood_count else ood_count,
       set_mean_shift col z m)
  | None => (ood_count, m)
  end.

(** Lines 95-107: the loop, then the ratio when the profile is not empty. *)
Definition drift_detection (training_stats : list (string * Stats))
    (features : Features) : Py.Proc Metrics unit :=
  fun m =>
    let '(ood_count, m') := fold_left (drift_step features) training_stats (0%nat, m) in
    if (0 <? length training_stats)%nat
    then (set_ood_ratio (float_of_nat ood_count / float_of_nat (length training_stats)) m',
          Py.Return tt)
    else (m', Py.Return tt).

(** The profile entries the loop counts: the request carries the feature and
    its z-score exceeds 3. *)
Definition counted (features : Features) (item : string * Stats) : bool :=
  match column_value features (fst item) with
  | Some val => PrimFloat.ltb 3 (z_score (to_float64 val) (snd item))
  | None => false
  end.

(** The gauge the loop writes for one profile entry. *)
Definition publish (features : Features) (m : Metrics) (item : string * Stats)
  : Metrics :=
  match column_value features (fst item) with
  | Some val => set_mean_shift (fst item) (z_score (to_float64 val) (snd item)) m
  | None => m
  end.

(** The drift rule in the words of the specification: the standardized
    deviation is [|value - mean| / std], and a feature is out of distribution
    when it exceeds 3. *)
Definition standardized_deviation (value mean std : float) : float :=
  (PrimFloat.abs (value - mean) / std)%float.

Definition out_of_distribution (features : Features) (item : string * Stats)
  : bool :=
  match column_value features (fst item) with
  | Some val =>
      PrimFloat.ltb 3 (standardized_deviation (to_float64 val)
                                              (mean (snd item)) (std (snd item)))
  | None => false
  end.

(** [predict] *)
Definition predict (svc : Service) (request : PredictionRequest)
  : Py.Proc Metrics PredictionResponse :=
  (Py.modify inc_count ;;
   Py.with_exit
     (Py.try_except
        (match model svc with
         | None => Py.raise (Py.HTTPException 503 (Py.Literal "Model not loaded"))
         | Some model =>
             let features := request_frame request in
             drift_detection (training_stats svc) features ;;
             let! prediction := Py.lift (model features) in
             Py.ret {| predicted_temp := prediction |}
         end)
        (fun e =>
           Py.modify inc_errors ;;
           Py.raise (Py.HTTPException 500 (Py.StrOf e))))
     observe_latency)%proc.

End Api.

(** ** Sample batches *)

Module Samples.
Import Transform.

(** A row as extract.py writes it for a 3-hourly forecast step: [t] seconds
    since the epoch, temperature [x]. *)
Definition observation (t : Z) (x : float) : RawObservation float :=
  {| dt := Some t;
     dt_txt := Some (t * 1000000000);
     temp := Some x;
     feels_like := Some x;
     pressure := Some 1013%float;
     humidity := Some 60%float;
     weather_main := Some "Clouds"%string;
     weather_description := Some "broken clouds"%string;
     wind_speed := Some 3.5%float;
     wind_deg := Some 210%float;
     clouds_all := Some 75%float;
     collection_time := Some 1704060000000000000 |}.

(** 2024-01-01, 00:00 to 06:00, out of order in the file. *)
Definition batch3 : list (RawObservation float) :=
  [ observation 1704078000 20; observation 1704067200 18;
    observation 1704088800 22 ].

(** The same day up to 12:00. *)
Definition batch5 : list (RawObservation float) :=
  [ observation 1704078000 20; observation 1704067200 18;
    observation 1704110400 23; observation 1704088800 22;
    observation 1704099600 25 ].

Definition batch2 : list (RawObservation float) :=
  [ observation 1704078000 20; observation 1704067200 18 ].

(** A documentation stage in which MLflow and the file system do all that
    is asked of them. *)
Definition documentation_works : Transform.Documentation float :=
  {| Transform.start_run := None;
     Transform.report := fun _ => None;
     Transform.log_artifact := None;
     Transform.end_run := None |}.

(** Two records with the same timestamp. *)
Definition batch_tie : list (RawObservation float) :=
  [ observation 1704067200 18; observation 1704067200 21 ].

(** An indexer by insertion that puts a position in front of the positions
    whose key is not smaller: ascending, equal keys in reverse input order. *)
Fixpoint insert_position_front (keys : list (option Z)) (i : nat)
    (placed : list nat) : list nat :=
  match placed with
  | [] => [i]
  | j :: rest =>
      if Pandas.key_le (Pandas.iloc keys i) (Pandas.iloc keys j)
      then i :: j :: rest
      else j :: insert_position_front keys i rest
  end.

Definition argsort_ties_reversed (keys : list (option Z)) : list nat :=
  fold_left (fun placed i => insert_position_front keys i placed)
            (seq 0 (length keys)) [].

(** A raw file of two rows, collected on 2024-01-01 at 00:00:00 and one
    second later. *)
Definition raw_file : Validate.DataFrame :=
  [ ("dt", Validate.Float64 [Some 1704067200; Some 1704078000]%float);
    ("dt_txt", Validate.IsoTime [Some 1704067200000000000; Some 1704078000000000000]);
    ("temp", Validate.Float64 [Some 18; Some 20]%float);
    ("feels_like", Validate.Float64 [Some 17.5; Some 19.5]%float);
    ("pressure", Validate.Float64 [Some 1013; Some 1012]%float);
    ("humidity", Validate.Float64 [Some 60; Some 65]%float);
    ("weather_main", Validate.Object [Some "Clouds"; Some "Rain"]);
    ("weather_description", Validate.Object [Some "broken clouds"; Some "light rain"]);
    ("wind_speed", Validate.Float64 [Some 3.5; Some 4]%float);
    ("wind_deg", Validate.Float64 [Some 210; Some 200]%float);
    ("clouds_all", Validate.Float64 [Some 75; Some 90]%float);
    ("collection_time", Validate.IsoTime [Some 1704067200000000000; Some 1704067201000000000])
  ]%string.

Definition without_column (col : string) (df : Validate.DataFrame) : Validate.DataFrame :=
  List.filter (fun c => negb (String.eqb (fst c) col)) df.

Definition with_column (col : string) (c : Validate.Column) (df : Validate.DataFrame)
  : Validate.DataFrame :=
  map (fun old => if String.eqb (fst old) col then (col, c) else old) df.

(** The file without its [pressure] column. *)
Definition file_without_pressure : Validate.DataFrame :=
  without_column "pressure" raw_file.

(** The file with an empty [wind_speed] cell. *)
Definition file_null_wind_speed : Validate.DataFrame :=
  with_column "wind_speed" (Validate.Float64 [Some 3.5%float; None]) raw_file.

(** The file with an empty [weather_main] cell. *)
Definition file_null_weather_main : Validate.DataFrame :=
  with_column "weather_main" (Validate.Object [None; Some "Rain"%string]) raw_file.

(** The file without its [dt] column and with an empty [temp] cell. *)
Definition file_without_dt_null_temp : Validate.DataFrame :=
  without_column "dt"
    (with_column "temp" (Validate.Float64 [None; Some 20%float]) raw_file).

(** 2024-01-01 00:30:00 and 2024-01-03 00:00:00. *)
Definition half_an_hour_later : Z := 1704069000000000000.
Definition two_days_later : Z := 1704240000000000000.

(** A request with temperature 35.0 and humidity 60.0. *)
Definition hot_request : Api.PredictionRequest :=
  {| Api.temp := 35; Api.humidity := 60; Api.pressure := 1013;
     Api.wind_speed := 3.5; Api.clouds_all := 75;
     Api.hour := 12; Api.day_of_week := 0; Api.month := 7;
     Api.temp_lag_1 := 34; Api.temp_rolling_mean_3 := 33.5;
     Api.temp_rolling_std_3 := 1.25 |}%float.

(** A model that answers 21.5 whatever the features. *)
Definition constant_model : Api.Model := fun _ => Py.Return 21.5%float.

(** The service after a successful startup. *)
Definition ready : Api.Service := Api.load_model (Py.Return constant_model) Api.unloaded.

(** A service whose profile also names [dew_point], which no request carries. *)
Definition ready_dew_point : Api.Service :=
  {| Api.model := Some constant_model;
     Api.training_stats :=
       [ ("temp", {| Api.mean := 20; Api.std := 5 |});
         ("dew_point", {| Api.mean := 10; Api.std := 2 |});
         ("humidity", {| Api.mean := 60; Api.std := 15 |}) ]%string%float |}.

(** A service with a model and an empty profile. *)
Definition ready_empty_profile : Api.Service :=
  {| Api.model := Some constant_model; Api.training_stats := [] |}.

(** A service whose profile records a zero standard deviation for [temp]. *)
Definition ready_zero_std : Api.Service :=
  {| Api.model := Some constant_model;
     Api.training_stats := [("temp"%string, {| Api.mean := 20; Api.std := 0 |})]%float |}.
End Samples.

(** ** Further sample data *)

Module MoreSamples.

(** Eight 3-hourly records in time order; the fourth has no temperature. *)
Definition batch_gap : list (Transform.RawObservation float) :=
  [ Samples.observation 1704067200 18;
    Samples.observation 1704078000 20;
    Samples.observation 1704088800 22;
    {| Transform.dt := Some 1704099600;
       Transform.dt_txt := Some 1704099600000000000;
       Transform.temp := None;
       Transform.feels_like := Some 21%float;
       Transform.pressure := Some 1013%float;
       Transform.humidity := Some 60%float;
       Transform.weather_main := Some "Clouds"%string;
       Transform.weather_description := Some "broken clouds"%string;
       Transform.wind_speed := Some 3.5%float;
       Transform.wind_deg := Some 210%float;
       Transform.clouds_all := Some 75%float;
       Transform.collection_time := Some 1704060000000000000 |};
    Samples.observation 1704110400 23;
    Samples.observation 1704121200 24;
    Samples.observation 1704132000 25;
    Samples.observation 1704142800 26 ].


(** 2024-01-02 00:00:01, 24 hours after the newest collection time of
    [Samples.raw_file]. *)
Definition a_day_later : Z := 1704153601000000000.

(** A model that fails on every input. *)
Definition failing_model : Api.Model :=
  fun _ => Py.Raise (Py.ModelError "X has 11 features, but the regressor expects 12").

(** A service with the startup profile and the failing model. *)
Definition ready_failing : Api.Service :=
  Api.load_model (Py.Return failing_model) Api.unloaded.
End MoreSamples.

(** ** validate.py: when the freshness step can be carried out *)

(** [pd.to_datetime(df['collection_time'].max())] returns: the column is in
    the frame and its newest cell converts to a time (or to NaT). *)
Definition freshness_readable (df : Validate.DataFrame) : bool :=
  match Validate.getitem df "collection_time" with
  | Py.Return c =>
      match Validate.latest_datetime c with
      | Py.Return _ => true
      | _ => false
      end
  | _ => false
  end.

(** ** extract.py *)

Module Extract.

(** A value as [response.json()] returns it; the members of an object are
    the items of the dict, each key once. *)
#[local] Set Warnings "-register-all".
Inductive json : Type :=
| JNull
| JBool (b : bool)
| JInt (n : Z)
| JFloat (x : float)
| JString (s : string)
| JArray (items : list json)
| JObject (members : list (string * json)).

(** What can be raised between the request and the saved file.
    [RequestException] stands for the class and its subclasses (connection
    errors, the [HTTPError] of [raise_for_status]). *)
Inductive key : Type :=
| Name (s : string)
| Index (i : Z).

Inductive error : Type :=
| RequestException (msg : string)
| KeyError (k : key)
| IndexError
| TypeError.

(** [v[name]]: a dict gives the member or [KeyError]; nothing else takes a
    string between the brackets. *)
Definition getitem (v : json) (name : string) : error + json :=
  match v with
  | JObject members =>
      match List.find (fun m => String.eqb (fst m) name) members with
      | Some m => inr (snd m)
      | None => inl (KeyError (Name name))
      end
  | _ => inl TypeError
  end.

(** [v[0]] *)
Definition first (v : json) : error + json :=
  match v with
  | JArray (x :: _) => inr x
  | JArray [] => inl IndexError
  | JString (String c _) => inr (JString (String c EmptyString))
  | JString EmptyString => inl IndexError
  | JObject _ => inl (KeyError (Index 0))
  | _ => inl TypeError
  end.

(** [iter(v)], run to its end: the items of a list, the keys of a dict, the
    characters of a string. *)
Definition iterate (v : json) : error + list json :=
  match v with
  | JArray items => inr items
  | JObject members => inr (map (fun m => JString (fst m)) members)
  | JString s =>
      inr (map (fun c => JString (String c EmptyString)) (String.list_ascii_of_string s))
  | _ => inl TypeError
  end.

Definition bind {A B} (c : error + A) (k : A -> error + B) : error + B :=
  match c with
  | inl e => inl e
  | inr a => k a
  end.

(** One row of the raw file: the [record] dictionary. *)
Record record : Type := {
  dt : json;
  dt_txt : json;
  temp : json;
  feels_like : json;
  pressure : json;
  humidity : json;
  weather_main : json;
  weather_description : json;
  wind_speed : json;
  wind_deg : json;
  clouds_all : json;
  collection_time : Z
}.

(** The keys of the dictionary, in the order it is written: the columns of
    the frame [pd.DataFrame(records)] when there is a record. *)
Definition record_keys : list string :=
  [ "dt"; "dt_txt"; "temp"; "feels_like"; "pressure"; "humidity";
    "weather_main"; "weather_description"; "wind_speed"; "wind_deg";
    "clouds_all"; "collection_time" ]%string.

Definition csv_header (records : list record) : list string :=
  match records with
  | [] => []
  | _ :: _ => record_keys
  end.

(** Lines 32-45: the dictionary display evaluates its values from top to
    bottom; [now] is what [datetime.now()] returns at the end. *)
Definition build_record (item : json) (now : Z) : error + record :=
  bind (getitem item "dt") (fun v_dt =>
  bind (getitem item "dt_txt") (fun v_dt_txt =>
  bind (bind (getitem item "main") (fun m => getitem m "temp")) (fun v_temp =>
  bind (bind (getitem item "main") (fun m => getitem m "feels_like")) (fun v_feels =>
  bind (bind (getitem item "main") (fun m => getitem m "pressure")) (fun v_pressure =>
  bind (bind (getitem item "main") (fun m => getitem m "humidity")) (fun v_humidity =>
  bind (bind (bind (getitem item "weather") first) (fun w => getitem w "main"))
       (fun v_main =>
  bind (bind (bind (getitem item "weather") first) (fun w => getitem w "description"))
       (fun v_description =>
  bind (bind (getitem item "wind") (fun w => getitem w "speed")) (fun v_speed =>
  bind (bind (getitem item "wind") (fun w => getitem w "deg")) (fun v_deg =>
  bind (bind (getitem item "clouds") (fun c => getitem c "all")) (fun v_all =>
  inr {| dt := v_dt; dt_txt := v_dt_txt; temp := v_temp; feels_like := v_feels;
         pressure := v_pressure; humidity := v_humidity;
         weather_main := v_main; weather_description := v_description;
         wind_speed := v_speed; wind_deg := v_deg; clouds_all := v_all;
         collection_time := now |}))))))))))).

(** The loop of lines 31-46. [clock k] is what the call number [k] of
    [datetime.now()] returns; the record of an item takes one call. *)
Fixpoint build_records (items : list json) (clock : nat -> Z) (k : nat)
  : error + list record :=
  match items with
  | [] => inr []
  | item :: rest =>
      bind (build_record item (clock k)) (fun r =>
      bind (build_records rest clock (S k)) (fun rs => inr (r :: rs)))
  end.

Inductive line : Type :=
| ApiKeyNotFound
| SavedDataTo (filename : Z)
| ErrorFetchingData (msg : string).

Inductive outcome : Type :=
| Returned (filename : Z)
| Raised (e : error)
| Exited (code : Z).

(** A run of the script: what it printed, the file it wrote (named by the
    time of the last call of [datetime.now()]) and how it ended. *)
Record run : Type := {
  printed : list line;
  written : option (Z * list record);
  result : outcome
}.

(** [if not API_KEY] *)
Definition no_key (api_key : option string) : bool :=
  match api_key with
  | None => true
  | Some s => String.eqb s ""
  end.

(** [fetch_weather_data]. [api_key] is the environment variable, [response]
    how [requests.get], [raise_for_status] and [json()] end. Only a
    [RequestException] is handled. The directory and the file are taken to
    be writable. *)
Definition fetch_weather_data (api_key : option string)
    (response : error + json) (clock : nat -> Z) : run :=
  if no_key api_key
  then {| printed := [ApiKeyNotFound]; written := None; result := Exited 1 |}
  else
    match bind response (fun data =>
          bind (getitem data "list") (fun l =>
          bind (iterate l) (fun items => build_records items clock 0))) with
    | inr records =>
        let filename := clock (length records) in
        {| printed := [SavedDataTo filename];
           written := Some (filename, records);
           result := Returned filename |}
    | inl (RequestException msg) =>
        {| printed := [ErrorFetchingData msg]; written := None;
           result := Exited 1 |}
    | inl e => {| printed := []; written := None; result := Raised e |}
    end.

End Extract.

(** The columns of the processed file: those of the raw file, then the
    columns transform.py assigns, in the order of lines 37-52. *)
Definition processed_columns : list string :=
  Extract.record_keys
  ++ [ "hour"; "day_of_week"; "month"; "temp_lag_1"; "humidity_lag_1";
       "temp_rolling_mean_3"; "temp_rolling_std_3"; "target_temp" ]%string.

(** ** models/train.py *)

Module Train.

Definition features : list string :=
  [ "temp"; "humidity"; "pressure"; "wind_speed"; "clouds_all";
    "hour"; "day_of_week"; "month";
    "temp_lag_1"; "temp_rolling_mean_3"; "temp_rolling_std_3" ]%string.

Definition target : string := "target_temp".

Section Frame.
(** A frame by its columns; what a column holds is the regressor's matter. *)
Context {C : Type}.
Implicit Types df : list (string * C).

(** [[f for f in features if f in df.columns]] *)
Definition available_features df : list string :=
  List.filter (fun f => bool_decide (f ∈ map fst df)) features.

(** [df[col]] *)
Definition getitem df (col : string) : Py.outcome C :=
  match List.find (fun c => String.eqb (fst c) col) df with
  | Some c => Py.Return (snd c)
  | None => Py.Raise (Py.KeyError [col])
  end.

(** [df[cols]]: the columns in the order of [cols], or [KeyError] with the
    names not found. *)
Definition getitem_list df (cols : list string) : Py.outcome (list (string * C)) :=
  match List.filter (fun col => negb (bool_decide (col ∈ map fst df))) cols with
  | [] =>
      Py.Return
        (omap (fun col => List.find (fun c => String.eqb (fst c) col) df) cols)
  | not_found => Py.Raise (Py.KeyError not_found)
  end.

Inductive line : Type :=
| MissingFeatures (available : list string).

(** [train_model], lines 59-64, from the loaded frame to the design matrix
    [X] and the target column [y] that go to the split and the regressor. *)
Definition design (df : list (string * C))
  : Py.Proc (list line) (list (string * C) * C) :=
  let available_features := available_features df in
  (Py.when (length available_features <? length features)%nat
     (Py.modify (fun log => log ++ [MissingFeatures available_features])) ;;
   let! X := Py.lift (getitem_list df available_features) in
   let! y := Py.lift (getitem df target) in
   Py.ret (X, y))%proc.
End Frame.

End Train.

(** ** Sample payloads and frames *)

Module PipelineSamples.
Import Extract.

(** A forecast item as the API sends it. *)
Definition forecast_item (t : Z) (txt : string) (celsius : float) : json :=
  JObject
    [ ("dt", JInt t);
      ("main", JObject [ ("temp", JFloat celsius); ("feels_like", JFloat 17.5);
                         ("temp_min", JFloat 17); ("pressure", JInt 1013);
                         ("humidity", JInt 60) ]);
      ("weather", JArray [ JObject [ ("id", JInt 803); ("main", JString "Clouds");
                                     ("description", JString "broken clouds") ] ]);
      ("clouds", JObject [ ("all", JInt 75) ]);
      ("wind", JObject [ ("speed", JFloat 3.5); ("deg", JInt 210) ]);
      ("dt_txt", JString txt) ]%string%float.

(** The same item without its [wind] member. *)
Definition item_without_wind (t : Z) (txt : string) (celsius : float) : json :=
  JObject
    [ ("dt", JInt t);
      ("main", JObject [ ("temp", JFloat celsius); ("feels_like", JFloat 17.5);
                         ("temp_min", JFloat 17); ("pressure", JInt 1013);
                         ("humidity", JInt 60) ]);
      ("weather", JArray [ JObject [ ("id", JInt 803); ("main", JString "Clouds");
                                     ("description", JString "broken clouds") ] ]);
      ("clouds", JObject [ ("all", JInt 75) ]);
      ("dt_txt", JString txt) ]%string%float.

Definition first_item : json := forecast_item 1704067200 "2024-01-01 00:00:00" 18.
Definition second_item : json := forecast_item 1704078000 "2024-01-01 03:00:00" 20.
Definition windless_item : json := item_without_wind 1704078000 "2024-01-01 03:00:00" 20.

Definition payload : json :=
  JObject [ ("cod", JString "200"); ("cnt", JInt 2);
            ("list", JArray [first_item; second_item]) ]%string.

Definition payload_without_wind : json :=
  JObject [ ("cod", JString "200"); ("cnt", JInt 3);
            ("list", JArray [first_item; windless_item; second_item]) ]%string.

(** A clock that advances by a microsecond at every call. *)
Definition clock (k : nat) : Z := 1704067200000000000 + 1000 * Z.of_nat k.

(** A processed file of one row. *)
Definition processed_file : list (string * list float) :=
  map (fun col => (col, [21.5%float])) processed_columns.

(** A processed file from before the rolling statistics were added. *)
Definition old_processed_file : list (string * list float) :=
  List.filter
    (fun c => negb (String.eqb (fst c) "temp_rolling_mean_3")
              && negb (String.eqb (fst c) "temp_rolling_std_3"))
    processed_file.
End PipelineSamples.

(** * Properties *)

(** ** Column operations *)

Section ColumnFacts.
Import Pandas.
Context {A : Type}.
Implicit Types s : list (option A).

Lemma length_shift k s : length (shift k s) = length s.
Proof.
  unfold shift. destruct (0 <=? k).
  - rewrite length_take, length_app, length_replicate. lia.
  - rewrite length_app, length_drop, length_replicate. lia.
Qed.

Lemma shift_lag s : shift 1 s = take (length s) (None :: s).
Proof. reflexivity. Qed.

Lemma shift_lead s :
  shift (-1) s = drop 1 s ++ replicate (Nat.min 1 (length s)) None.
Proof. reflexivity. Qed.

(** [shift(1)]: the first row is missing, row [i+1] holds the value of row [i]. *)
Lemma iloc_shift_lag_0 s : iloc (shift 1 s) 0 = None.
Proof. rewrite shift_lag. unfold iloc. now destruct s. Qed.

Lemma iloc_shift_lag_S s i :
  (S i < length s)%nat -> iloc (shift 1 s) (S i) = iloc s i.
Proof.
  intros Hi. rewrite shift_lag. unfold iloc.
  rewrite lookup_take_lt by lia. reflexivity.
Qed.

(** [shift(-1)]: row [i] holds the value of row [i+1]; the last row is missing. *)
Lemma iloc_shift_lead s i : iloc (shift (-1) s) i = iloc s (S i).
Proof.
  rewrite shift_lead. unfold iloc.
  destruct (decide (S i < length s)%nat) as [Hlt|Hge].
  - rewrite lookup_app_l by (rewrite length_drop; lia).
    now rewrite lookup_drop.
  - rewrite (lookup_ge_None_2 s (S i)) by lia.
    destruct (decide (i < length s)%nat) as [Hi|Hi].
    + rewrite lookup_app_r by (rewrite length_drop; lia).
      rewrite length_drop.
      replace (Nat.min 1 (length s)) with 1%nat by lia.
      replace (i - (length s - 1))%nat with 0%nat by lia. reflexivity.
    + rewrite lookup_ge_None_2; [reflexivity|].
      rewrite length_app, length_drop, length_replicate. lia.
Qed.

Lemma observations_present (w : list (option A)) :
  Forall (fun c => notnull c = true) w ->
  exists xs, observations w = Some xs /\ length xs = length w.
Proof.
  induction 1 as [|c w Hc _ (xs & IH1 & IH2)]; [now exists []|].
  destruct c as [x|]; [|discriminate].
  exists (x :: xs). simpl. rewrite IH1. split; [reflexivity|]. simpl. now rewrite IH2.
Qed.

Lemma length_rolling {B} w (agg : list A -> B) s :
  length (rolling w agg s) = length s.
Proof. unfold rolling. now rewrite length_map, length_seq. Qed.

Lemma iloc_rolling {B} w (agg : list A -> B) s i :
  (i < length s)%nat -> iloc (rolling w agg s) i = rolling_at w agg s i.
Proof.
  intros Hi. unfold iloc, rolling.
  rewrite list_lookup_fmap, lookup_seq_lt by lia. reflexivity.
Qed.

(** A window that reaches before the first row is missing. *)
Lemma rolling_at_short {B} w (agg : list A -> B) s i :
  (S i < w)%nat -> rolling_at w agg s i = None.
Proof.
  intros Hi. unfold rolling_at.
  destruct (S i <? w)%nat eqn:E; [reflexivity|].
  apply Nat.ltb_ge in E. lia.
Qed.

(** A full window of present values yields a value. *)
Lemma rolling_at_full {B} w (agg : list A -> B) s i :
  (w <= S i)%nat ->
  Forall (fun c => notnull c = true) s ->
  exists xs, rolling_at w agg s i = Some (agg xs).
Proof.
  intros Hi Hs. unfold rolling_at.
  destruct (S i <? w)%nat eqn:E; [apply Nat.ltb_lt in E; lia|].
  destruct (observations_present (take w (drop (S i - w) s))) as (xs & -> & _).
  - now apply Forall_take, Forall_drop.
  - eauto.
Qed.
End ColumnFacts.

(** Filtering a list whose accepted positions form the interval [[a, b)]. *)
Lemma filter_interval {A} (P : A -> Prop) `{!forall x, Decision (P x)}
    (l : list A) (a b : nat) :
  (forall i x, l !! i = Some x -> (P x <-> (a <= i < b)%nat)) ->
  filter P l = take (b - a) (drop a l).
Proof.
  revert a b. induction l as [|x l IH]; intros a b Hl.
  - now rewrite drop_nil, take_nil.
  - destruct a as [|a].
    + destruct b as [|b].
      * rewrite filter_cons_False by (intros HP; apply (Hl 0%nat x) in HP; [lia|easy]).
        rewrite (IH 0%nat 0%nat); [reflexivity|].
        intros i y Hy. rewrite (Hl (S i) y Hy). lia.
      * rewrite filter_cons_True by (apply (Hl 0%nat x); [easy|lia]).
        simpl. f_equal. rewrite (IH 0%nat b).
        -- now rewrite Nat.sub_0_r.
        -- intros i y Hy. rewrite (Hl (S i) y Hy). lia.
    + rewrite filter_cons_False by (intros HP; apply (Hl 0%nat x) in HP; [lia|easy]).
      simpl drop. rewrite (IH a (b - 1)%nat).
      * f_equal. lia.
      * intros i y Hy. rewrite (Hl (S i) y Hy). lia.
Qed.

Lemma filter_none {A} (P : A -> Prop) `{!forall x, Decision (P x)} (l : list A) :
  Forall (fun x => ~ P x) l -> filter P l = [].
Proof.
  induction 1 as [|x l Hx _ IH]; [reflexivity|].
  now rewrite filter_cons_False.
Qed.

(** ** transform.py *)

Section TransformFacts.
Import Pandas Transform.
Context {F : Type} `{Number F}.
Implicit Types df : list (RawObservation F).

Lemma lookup_feature_engineering df i :
  feature_engineering df !! i
  = (fun r =>
       {| raw := r;
          hour := dt_hour <$> dt_txt r;
          day_of_week := dt_dayofweek <$> dt_txt r;
          month := dt_month <$> dt_txt r;
          temp_lag_1 := iloc (shift 1 (map temp df)) i;
          humidity_lag_1 := iloc (shift 1 (map humidity df)) i;
          temp_rolling_mean_3 := iloc (rolling 3 mean (map temp df)) i;
          temp_rolling_std_3 := iloc (rolling 3 std (map temp df)) i;
          target_temp := iloc (shift (-1) (map temp df)) i |}) <$> df !! i.
Proof. unfold feature_engineering. now rewrite list_lookup_imap. Qed.

Lemma length_feature_engineering df :
  length (feature_engineering df) = length df.
Proof. unfold feature_engineering. now rewrite length_imap. Qed.

Lemma raw_feature_engineering df : map raw (feature_engineering df) = df.
Proof.
  apply list_eq. intros i.
  rewrite list_lookup_fmap, lookup_feature_engineering.
  now destruct (df !! i).
Qed.

(** A column read off rows that all hold a value. *)
Lemma notnull_iloc_column {B} (g : RawObservation F -> option B) df i :
  Forall (fun r => notnull (g r) = true) df ->
  notnull (iloc (map g df) i) = true <-> (i < length df)%nat.
Proof.
  intros Hdf. unfold iloc. rewrite list_lookup_fmap.
  destruct (df !! i) as [r|] eqn:E; simpl.
  - rewrite (Forall_lookup_1 _ _ _ _ Hdf E).
    apply lookup_lt_Some in E. tauto.
  - apply lookup_ge_None_1 in E. split; [discriminate|lia].
Qed.

Lemma raw_notnull_fields (r : RawObservation F) :
  raw_notnull r = true ->
  notnull (dt_txt r) = true /\ notnull (temp r) = true
  /\ notnull (humidity r) = true.
Proof.
  unfold raw_notnull. rewrite !andb_true_iff. tauto.
Qed.

(** On a frame without missing raw values, the engineered row at position
    [i] is complete exactly from the third row up to the last but one. *)
Lemma row_notnull_position df i r :
  Forall (fun r => raw_notnull r = true) df ->
  feature_engineering df !! i = Some r ->
  row_notnull r = true <-> (2 <= i < length df - 1)%nat.
Proof.
  intros Hdf. rewrite lookup_feature_engineering.
  destruct (df !! i) as [r0|] eqn:E; [|discriminate].
  intros [= <-]. pose proof (lookup_lt_Some _ _ _ E) as Hi.
  assert (Htemp : Forall (fun r => notnull (temp r) = true) df).
  { eapply Forall_impl; [exact Hdf|]. intros ? ?%raw_notnull_fields. tauto. }
  assert (Hhum : Forall (fun r => notnull (humidity r) = true) df).
  { eapply Forall_impl; [exact Hdf|]. intros ? ?%raw_notnull_fields. tauto. }
  assert (Hcol : Forall (fun c => notnull c = true) (map temp df)).
  { now apply Forall_fmap. }
  pose proof (Forall_lookup_1 _ _ _ _ Hdf E) as Hr0.
  destruct (raw_notnull_fields _ Hr0) as (Ht & _ & _).
  unfold row_notnull. cbn [raw hour day_of_week month temp_lag_1 humidity_lag_1
    temp_rolling_mean_3 temp_rolling_std_3 target_temp].
  rewrite Hr0. destruct (dt_txt r0) as [t|]; [|discriminate]. cbn [fmap option_fmap option_map notnull isnull negb andb].
  rewrite iloc_shift_lead.
  rewrite !iloc_rolling by (rewrite length_map; lia).
  destruct i as [|[|i]].
  - rewrite iloc_shift_lag_0. cbn. split; [discriminate|lia].
  - rewrite (rolling_at_short 3 mean) by lia.
    rewrite !andb_false_r. cbn. split; [discriminate|lia].
  - rewrite !iloc_shift_lag_S by (rewrite length_map; lia).
    destruct (rolling_at_full 3 mean (map temp df) (S (S i))) as [xs ->];
      [lia|assumption|].
    destruct (rolling_at_full 3 std (map temp df) (S (S i))) as [ys ->];
      [lia|assumption|].
    pose proof (notnull_iloc_column temp df (S i) Htemp) as H1.
    pose proof (notnull_iloc_column humidity df (S i) Hhum) as H2.
    pose proof (notnull_iloc_column temp df (S (S (S i))) Htemp) as H3.
    unfold notnull in *.
    destruct (iloc (map temp df) (S i)); [|cbn in H1; lia].
    destruct (iloc (map humidity df) (S i)); [|cbn in H2; lia].
    cbn. destruct (iloc (map temp df) (S (S (S i)))); cbn in *.
    + split; [lia|reflexivity].
    + split; [discriminate|]. intros. enough (false = true) by discriminate.
      apply H3. lia.
Qed.

(** The frame [dropna()] leaves: rows 3 to [n-1] of the engineered frame. *)
Lemma dropna_feature_engineering df :
  Forall (fun r => raw_notnull r = true) df ->
  dropna (feature_engineering df)
  = take (length df - 3) (drop 2 (feature_engineering df)).
Proof.
  intros Hdf. unfold dropna.
  rewrite (filter_interval _ _ 2 (length df - 1)).
  - f_equal. lia.
  - intros i r Hr. now apply row_notnull_position.
Qed.

(** The rolling window leaves the first two rows incomplete whatever the
    frame holds. *)
Lemma row_notnull_from_third df i r :
  feature_engineering df !! i = Some r ->
  row_notnull r = true -> (2 <= i)%nat.
Proof.
  rewrite lookup_feature_engineering.
  destruct (df !! i) as [r0|] eqn:E; [|discriminate].
  intros [= <-]. pose proof (lookup_lt_Some _ _ _ E) as Hi.
  unfold row_notnull. cbn [raw hour day_of_week month temp_lag_1 humidity_lag_1
    temp_rolling_mean_3 temp_rolling_std_3 target_temp].
  rewrite !andb_true_iff. intros ((((_ & _) & Hm) & _) & _).
  rewrite iloc_rolling in Hm by (rewrite length_map; lia).
  destruct (decide (2 <= i)%nat); [assumption|].
  rewrite (rolling_at_short 3 mean) in Hm by lia. discriminate.
Qed.
End TransformFacts.

Section TransformClaims.
Import Pandas Transform.



(** C7. On the temperatures 18.0, 20.0, 22.0 the third record gets the
    rolling mean 20.0 and the rolling sample standard deviation 2.0. *)
Theorem rolling_statistics_18_20_22 (df : list (RawObservation float)) :
  map temp df = [Some 18; Some 20; Some 22]%float ->
  temp_rolling_mean_3 <$> feature_engineering df !! 2%nat = Some (Some 20%float)
  /\ temp_rolling_std_3 <$> feature_engineering df !! 2%nat = Some (Some 2%float).
Proof.
  intros Htemp. rewrite lookup_feature_engineering, Htemp.
  destruct df as [|r1 [|r2 [|r3 [|r4 df]]]]; try discriminate.
  split; reflexivity.
Qed.
End TransformClaims.





Lemma rolling_statistics_18_20_22_witness :
  Transform.temp_rolling_mean_3
    <$> Transform.feature_engineering
          (Pandas.sort_values Pandas.argsort_stable Transform.dt_txt Samples.batch3)
        !! 2%nat = Some (Some 20%float)
  /\ Transform.temp_rolling_std_3
       <$> Transform.feature_engineering
             (Pandas.sort_values Pandas.argsort_stable Transform.dt_txt Samples.batch3)
           !! 2%nat = Some (Some 2%float).
Proof.
  apply (rolling_statistics_18_20_22
           (Pandas.sort_values Pandas.argsort_stable Transform.dt_txt Samples.batch3)).
  reflexivity.
Defined.

(** ** Facts about binary64 arithmetic *)

Section FloatFacts.
Import FloatAxioms.

Lemma SFabs_binary_round_aux s m e l :
  SFabs (binary_round_aux prec emax s m e l) = binary_round_aux prec emax false m e l.
Proof.
  unfold binary_round_aux.
  destruct (shr_fexp prec emax m e l) as [mrs' e'].
  destruct (shr_fexp prec emax _ e' loc_Exact) as [mrs'' e''].
  destruct (shr_m mrs''); [reflexivity| |reflexivity].
  now destruct (_ <=? _).
Qed.

(** The sign of a quotient does not touch its magnitude: for a divisor that
    is its own absolute value (a NaN, or a float whose sign bit is clear), the
    absolute value of the quotient is the quotient of the absolute value. *)
Lemma abs_div_nonnegative (x s : float) :
  PrimFloat.abs s = s ->
  PrimFloat.abs (x / s) = (PrimFloat.abs x / s)%float.
Proof.
  intros Hs. apply Prim2SF_inj.
  rewrite abs_spec, !div_spec, abs_spec.
  apply (f_equal Prim2SF) in Hs. rewrite abs_spec in Hs.
  destruct (Prim2SF s) as [ss|ss| |ss ms es]; try discriminate;
    try (injection Hs as <-);
    destruct (Prim2SF x) as [sx|sx| |sx mx ex]; try reflexivity;
    try (cbn; now rewrite ?xorb_false_r).
  unfold SF64div, SFdiv, SFabs at 2.
  destruct (SFdiv_core_binary prec emax (Z.pos mx) ex (Z.pos ms) es) as [[mz ez] lz].
  rewrite SFabs_binary_round_aux. now rewrite !xorb_false_r.
Qed.

Lemma SFeqb_zero (x : spec_float) :
  SFeqb x (S754_zero false) = true -> exists s, x = S754_zero s.
Proof.
  unfold SFeqb, SFcompare.
  destruct x as [s|s| |s m e]; try discriminate; [eauto| |]; now destruct s.
Qed.

Lemma SFeqb_refl_not_nan (x : spec_float) :
  x <> S754_nan -> SFeqb x x = true.
Proof.
  unfold SFeqb, SFcompare. destruct x as [s|s| |s m e]; try easy.
  - now destruct s.
  - intros _. destruct s; rewrite Z.compare_refl; rewrite ?Pos.compare_cont_refl, ?Pos.compare_refl; try reflexivity.
Qed.
End FloatFacts.

(** ** api/app/main.py *)

Section ZeroStd.
Import FloatAxioms.

Lemma z_score_zero_std (val : float) (st : Api.Stats) :
  PrimFloat.eqb (Api.std st) 0 = true ->
  Api.z_score val st
  = let d := (val - Api.mean st)%float in
    if PrimFloat.is_nan d || PrimFloat.eqb d 0 then nan else infinity.
Proof.
  intros Hs. cbv zeta. unfold Api.z_score.
  set (d := (val - Api.mean st)%float).
  rewrite eqb_spec in Hs. change (Prim2SF 0) with (S754_zero false) in Hs.
  apply SFeqb_zero in Hs as [s Hs].
  unfold PrimFloat.is_nan. rewrite !eqb_spec.
  change (Prim2SF 0) with (S754_zero false).
  assert (Hz : Prim2SF (PrimFloat.abs (d / Api.std st))
               = SFabs (SF64div (Prim2SF d) (S754_zero s))).
  { now rewrite abs_spec, div_spec, Hs. }
  apply Prim2SF_inj. rewrite Hz.
  destruct (Prim2SF d) as [sd|sd| |sd md ed] eqn:Ed.
  - cbn. reflexivity.
  - rewrite SFeqb_refl_not_nan by discriminate. cbn. now destruct sd.
  - reflexivity.
  - rewrite SFeqb_refl_not_nan by discriminate. cbn. now destruct sd.
Qed.
End ZeroStd.

Section DriftLoop.
Import Api.
Implicit Types (features : Features) (ts : list (string * Stats)) (m : Metrics).

(** The loop keeps two things apart: the counter and the gauges. *)
Lemma drift_loop features ts k m :
  fold_left (drift_step features) ts (k, m)
  = ((k + length (List.filter (counted features) ts))%nat,
     fold_left (publish features) ts m).
Proof.
  revert k m. induction ts as [|[col st] ts IH]; intros k m.
  - cbn. now rewrite Nat.add_0_r.
  - cbn [fold_left List.filter].
    replace (drift_step features (k, m) (col, st))
      with ((if counted features (col, st) then S k else k),
            publish features m (col, st)).
    + rewrite IH. destruct (counted features (col, st)); cbn [length]; f_equal; lia.
    + unfold drift_step, counted, publish. cbn [fst snd].
      now destruct (column_value features col).
Qed.

Lemma publish_frame features ts m :
  PREDICTION_COUNT (fold_left (publish features) ts m) = PREDICTION_COUNT m
  /\ PREDICTION_LATENCY (fold_left (publish features) ts m) = PREDICTION_LATENCY m
  /\ PREDICTION_ERRORS (fold_left (publish features) ts m) = PREDICTION_ERRORS m
  /\ OOD_RATIO (fold_left (publish features) ts m) = OOD_RATIO m.
Proof.
  revert m. induction ts as [|item ts IH]; intros m; [easy|].
  cbn [fold_left]. destruct (IH (publish features m item)) as (-> & -> & -> & ->).
  unfold publish. now destruct (column_value features (fst item)).
Qed.

(** A label no profile entry names keeps its gauge. *)
Lemma publish_other features ts m col :
  col ∉ map fst ts ->
  FEATURE_MEAN_SHIFT (fold_left (publish features) ts m) !! col
  = FEATURE_MEAN_SHIFT m !! col.
Proof.
  revert m. induction ts as [|[c st] ts IH]; intros m Hcol; [reflexivity|].
  cbn in Hcol. apply not_elem_of_cons in Hcol as [Hne Hcol].
  cbn [fold_left]. rewrite IH by assumption.
  unfold publish. cbn [fst snd].
  destruct (column_value features c); [|reflexivity].
  cbn. apply lookup_insert_ne. congruence.
Qed.

(** The gauge of a profile entry the request carries holds its z-score. *)
Lemma publish_entry features ts m col st val :
  NoDup (map fst ts) ->
  (col, st) ∈ ts ->
  column_value features col = Some val ->
  FEATURE_MEAN_SHIFT (fold_left (publish features) ts m) !! col
  = Some (z_score (to_float64 val) st).
Proof.
  revert m. induction ts as [|[c s] ts IH]; intros m Hnd Hin Hval.
  - now apply elem_of_nil in Hin.
  - cbn in Hnd. apply NoDup_cons in Hnd as [Hc Hnd].
    cbn [fold_left]. apply elem_of_cons in Hin as [[= <- <-]|Hin].
    + rewrite publish_other by assumption.
      unfold publish. cbn [fst snd]. rewrite Hval. cbn.
      apply lookup_insert_eq.
    + now apply IH.
Qed.

Lemma drift_detection_run features ts m :
  drift_detection ts features m
  = (let m' := fold_left (publish features) ts m in
     if (0 <? length ts)%nat
     then set_ood_ratio
            (float_of_nat (length (List.filter (counted features) ts))
             / float_of_nat (length ts)) m'
     else m',
     Py.Return tt).
Proof.
  unfold drift_detection. rewrite drift_loop. cbn [Nat.add].
  now destruct (0 <? length ts)%nat.
Qed.

(** [predict] on a loaded service: drift detection on the counted request,
    then the model, whose exception the handler turns into a 500. *)
Lemma predict_loaded svc request m mdl :
  model svc = Some mdl ->
  predict svc request m
  = let features := request_frame request in
    let m' := fst (drift_detection (training_stats svc) features (inc_count m)) in
    match mdl features with
    | Py.Return p => (observe_latency m', Py.Return {| predicted_temp := p |})
    | Py.Raise e =>
        (observe_latency (inc_errors m'),
         Py.Raise (Py.HTTPException 500 (Py.StrOf e)))
    | Py.SysExit n => (observe_latency m', Py.SysExit n)
    end.
Proof.
  intros Hm. unfold predict, Py.bind, Py.with_exit, Py.try_except, Py.modify,
    Py.lift, Py.ret, Py.raise. rewrite Hm.
  rewrite drift_detection_run. cbn [fst].
  now destruct (mdl (request_frame request)).
Qed.

Lemma predict_gauges svc request m mdl :
  model svc = Some mdl ->
  let m' := fst (drift_detection (training_stats svc) (request_frame request)
                                 (inc_count m)) in
  OOD_RATIO (fst (predict svc request m)) = OOD_RATIO m'
  /\ FEATURE_MEAN_SHIFT (fst (predict svc request m)) = FEATURE_MEAN_SHIFT m'.
Proof.
  intros Hm m'. rewrite (predict_loaded _ _ _ _ Hm). cbv zeta. fold m'.
  now destruct (mdl (request_frame request)).
Qed.

(** [predict] without a model: the 503 raised in the [try] block is caught by
    the handler of the same block and leaves as a 500. *)
Lemma predict_unloaded svc request m :
  model svc = None ->
  predict svc request m
  = (observe_latency (inc_errors (inc_count m)),
     Py.Raise (Py.HTTPException 500
                 (Py.StrOf (Py.HTTPException 503 (Py.Literal "Model not loaded"))))).
Proof.
  intros Hm. unfold predict, Py.bind, Py.with_exit, Py.try_except, Py.modify,
    Py.raise. now rewrite Hm.
Qed.
End DriftLoop.

Section ApiClaims.
Import Api.

(** On a non-negative standard deviation the z-score of the code is the
    standardized deviation of the specification. *)
Lemma z_score_standardized (val : float) (st : Stats) :
  PrimFloat.abs (std st) = std st ->
  z_score val st = standardized_deviation val (mean st) (std st).
Proof. intros Hs. unfold z_score, standardized_deviation. now apply abs_div_nonnegative. Qed.

Lemma counted_out_of_distribution features (ts : list (string * Stats)) :
  Forall (fun item => PrimFloat.abs (std (snd item)) = std (snd item)) ts ->
  List.filter (counted features) ts = List.filter (out_of_distribution features) ts.
Proof.
  induction 1 as [|item ts Hitem _ IH]; [reflexivity|].
  cbn [List.filter]. rewrite IH.
  replace (counted features item) with (out_of_distribution features item);
    [reflexivity|].
  unfold counted, out_of_distribution.
  destruct (column_value features (fst item)); [|reflexivity].
  now rewrite z_score_standardized.
Qed.

(** C4. Over a profile of non-negative standard deviations, the loop counts
    exactly the features the request carries whose standardized deviation
    [|value - mean| / std] is strictly above 3. At the boundary, mean 20.0,
    standard deviation 5.0 and value 35.0, the deviation is 3.0 and the
    feature is not counted; the value 35.5 is counted. *)
Theorem ood_threshold_strict (features : Features) (ts : list (string * Stats))
    (m : Metrics) :
  Forall (fun item => PrimFloat.abs (std (snd item)) = std (snd item)) ts ->
  fst (fold_left (drift_step features) ts (0%nat, m))
  = length (List.filter (out_of_distribution features) ts)
  /\ standardized_deviation 35 20 5 = 3%float
  /\ z_score 35 {| mean := 20; std := 5 |} = 3%float
  /\ fst (drift_step [("temp"%string, Float 35)] (0%nat, m)
                     ("temp"%string, {| mean := 20; std := 5 |})) = 0%nat
  /\ fst (drift_step [("temp"%string, Float 35.5)] (0%nat, m)
                     ("temp"%string, {| mean := 20; std := 5 |})) = 1%nat.
Proof.
  intros Hts. rewrite drift_loop. cbn [fst Nat.add].
  rewrite counted_out_of_distribution by assumption.
  repeat split; reflexivity.
Qed.

(** C10. With a model loaded and a profile that is not empty, the ratio
    [predict] publishes is the number of counted features over the number of
    profile entries. Only features the request carries are counted; a profile
    entry the request does not carry adds one to the denominator and nothing
    to the numerator. *)
Theorem ood_ratio_denominator (svc : Service) (request : PredictionRequest)
    (m : Metrics) (mdl : Model) :
  model svc = Some mdl ->
  training_stats svc <> [] ->
  let features := request_frame request in
  let ts := training_stats svc in
  OOD_RATIO (fst (predict svc request m))
  = (float_of_nat (length (List.filter (counted features) ts))
     / float_of_nat (length ts))%float
  /\ Forall (fun item => column_value features (fst item) <> None)
            (List.filter (counted features) ts)
  /\ forall ts1 ts2 col st,
       ts = ts1 ++ (col, st) :: ts2 ->
       column_value features col = None ->
       List.filter (counted features) ts = List.filter (counted features) (ts1 ++ ts2)
       /\ length ts = S (length (ts1 ++ ts2)).
Proof.
  intros Hm Hts features ts.
  destruct (predict_gauges svc request m mdl Hm) as [-> _].
  rewrite drift_detection_run. fold features ts. cbv zeta.
  split; [|split].
  - assert (Hne : (0 <? length ts)%nat = true).
    { apply Nat.ltb_lt. subst ts. destruct (training_stats svc); [congruence|cbn; lia]. }
    now rewrite Hne.
  - apply Forall_forall. intros item Hitem.
    apply list_elem_of_In, filter_In in Hitem as [_ Hc].
    unfold counted in Hc. now destruct (column_value features (fst item)).
  - intros ts1 ts2 col st -> Hcol. split.
    + rewrite !List.filter_app. cbn [List.filter].
      unfold counted at 2. cbn [fst]. now rewrite Hcol.
    + rewrite !length_app. cbn [length]. lia.
Qed.

(** A profile entry with a zero standard deviation, for a feature the request
    carries: its gauge is written and it stays in the denominator. *)
Lemma zero_std_entry (svc : Service) (request : PredictionRequest)
    (m : Metrics) (mdl : Model) (col : string) (st : Stats) (val : scalar) :
  model svc = Some mdl ->
  NoDup (map fst (training_stats svc)) ->
  (col, st) ∈ training_stats svc ->
  PrimFloat.eqb (std st) 0 = true ->
  column_value (request_frame request) col = Some val ->
  let features := request_frame request in
  let ts := training_stats svc in
  let d := (to_float64 val - mean st)%float in
  let undefined := PrimFloat.is_nan d || PrimFloat.eqb d 0 in
  FEATURE_MEAN_SHIFT (fst (predict svc request m)) !! col
  = Some (if undefined then nan else infinity)
  /\ OOD_RATIO (fst (predict svc request m))
     = (float_of_nat (length (List.filter (counted features) ts))
        / float_of_nat (length ts))%float
  /\ counted features (col, st) = negb undefined.
Proof.
  intros Hm Hnd Hin Hstd Hval features ts d undefined.
  destruct (predict_gauges svc request m mdl Hm) as [-> ->].
  rewrite drift_detection_run. fold features ts. cbv zeta.
  assert (Hne : (0 <? length ts)%nat = true).
  { apply Nat.ltb_lt. subst ts. destruct (training_stats svc);
      [now apply elem_of_nil in Hin|cbn; lia]. }
  rewrite Hne. cbn [fst FEATURE_MEAN_SHIFT OOD_RATIO set_ood_ratio].
  split; [|split].
  - rewrite (publish_entry features ts _ col st val Hnd Hin Hval).
    now rewrite z_score_zero_std.
  - reflexivity.
  - unfold counted. cbn [fst snd]. fold features in Hval. rewrite Hval.
    rewrite z_score_zero_std by assumption. cbv zeta. fold d undefined.
    now destruct undefined.
Qed.

(** With an empty profile [predict] leaves both drift gauges as they were. *)
Lemma empty_profile_gauges (svc : Service) (request : PredictionRequest)
    (m : Metrics) (mdl : Model) :
  model svc = Some mdl ->
  training_stats svc = [] ->
  OOD_RATIO (fst (predict svc request m)) = OOD_RATIO m
  /\ FEATURE_MEAN_SHIFT (fst (predict svc request m)) = FEATURE_MEAN_SHIFT m.
Proof.
  intros Hm Hts. destruct (predict_gauges svc request m mdl Hm) as [-> ->].
  rewrite drift_detection_run, Hts. now cbn.
Qed.

End ApiClaims.

(** C2, at the failing input: a request that reaches the service before any
    model is loaded. No gauge is written and [health_check] reports
    [model_loaded = false], but what leaves [predict] is the handler's 500
    that wraps the 503, and the error counter is incremented. *)
Theorem predict_unloaded_raises_500 :
  Api.predict Api.unloaded Samples.hot_request Api.registry
  = ({| Api.PREDICTION_COUNT := 1; Api.PREDICTION_LATENCY := 1;
        Api.PREDICTION_ERRORS := 1; Api.OOD_RATIO := 0;
        Api.FEATURE_MEAN_SHIFT := ∅ |},
     Py.Raise (Py.HTTPException 500
                 (Py.StrOf (Py.HTTPException 503 (Py.Literal "Model not loaded")))))
  /\ Api.health_check Api.unloaded
     = {| Api.status := "unhealthy"; Api.model_loaded := false |}.
Proof. split; reflexivity. Qed.



Lemma ood_threshold_strict_witness :
  fst (fold_left (Api.drift_step (Api.request_frame Samples.hot_request))
                 (Api.training_stats Samples.ready) (0%nat, Api.registry))
  = length (List.filter (Api.out_of_distribution (Api.request_frame Samples.hot_request))
                        (Api.training_stats Samples.ready))
  /\ Api.standardized_deviation 35 20 5 = 3%float
  /\ Api.z_score 35 {| Api.mean := 20; Api.std := 5 |} = 3%float
  /\ fst (Api.drift_step [("temp"%string, Api.Float 35)] (0%nat, Api.registry)
                         ("temp"%string, {| Api.mean := 20; Api.std := 5 |})) = 0%nat
  /\ fst (Api.drift_step [("temp"%string, Api.Float 35.5)] (0%nat, Api.registry)
                         ("temp"%string, {| Api.mean := 20; Api.std := 5 |})) = 1%nat.
Proof.
  apply (ood_threshold_strict (Api.request_frame Samples.hot_request)
           (Api.training_stats Samples.ready) Api.registry).
  repeat constructor.
Defined.

Lemma ood_ratio_denominator_witness :
  let features := Api.request_frame Samples.hot_request in
  let ts := Api.training_stats Samples.ready_dew_point in
  Api.OOD_RATIO
    (fst (Api.predict Samples.ready_dew_point Samples.hot_request Api.registry))
  = (float_of_nat (length (List.filter (Api.counted features) ts))
     / float_of_nat (length ts))%float
  /\ Forall (fun item => Api.column_value features (fst item) <> None)
            (List.filter (Api.counted features) ts)
  /\ forall ts1 ts2 col st,
       ts = ts1 ++ (col, st) :: ts2 ->
       Api.column_value features col = None ->
       List.filter (Api.counted features) ts
       = List.filter (Api.counted features) (ts1 ++ ts2)
       /\ length ts = S (length (ts1 ++ ts2)).
Proof.
  apply (ood_ratio_denominator Samples.ready_dew_point Samples.hot_request
           Api.registry Samples.constant_model).
  - reflexivity.
  - discriminate.
Defined.

(** ** validate.py *)

Section ValidateFacts.
Import Validate.
Implicit Types (df : DataFrame) (log : list line).

Lemma has_column_getitem df col c :
  getitem df col = Py.Return c -> has_column df col = true.
Proof.
  unfold getitem, has_column, columns.
  destruct (list_find _ df) as [[i [col' c']]|] eqn:E; [|discriminate].
  intros _. apply list_find_Some in E as (Hi & Hcol & _). cbn in Hcol. subst col'.
  apply bool_decide_eq_true. apply list_elem_of_fmap.
  exists (col, c'). split; [reflexivity|]. eapply list_elem_of_lookup_2, Hi.
Qed.

Lemma missing_cols_nil df col :
  missing_cols df = [] -> col ∈ expected_cols -> has_column df col = true.
Proof.
  intros Hm Hcol. destruct (has_column df col) eqn:E; [reflexivity|].
  assert (Hin : In col (missing_cols df)).
  { apply filter_In. split; [now apply list_elem_of_In|now rewrite E]. }
  rewrite Hm in Hin. destruct Hin.
Qed.

(** With the four critical columns in the frame, [df[critical_cols]] is the
    critical part of the frame. *)
Lemma getitem_critical df :
  forallb (has_column df) critical_cols = true ->
  getitem_columns df critical_cols = Py.Return (critical_frame df).
Proof.
  unfold getitem_columns, critical_cols. cbn [forallb List.filter].
  destruct (has_column df "temp"), (has_column df "humidity"),
    (has_column df "pressure"), (has_column df "wind_speed");
    (discriminate || reflexivity).
Qed.

Lemma getitem_critical_missing df :
  forallb (has_column df) critical_cols = false ->
  exists cols, getitem_columns df critical_cols = Py.Raise (Py.KeyError cols).
Proof.
  unfold getitem_columns, critical_cols. cbn [forallb List.filter].
  destruct (has_column df "temp"), (has_column df "humidity"),
    (has_column df "pressure"), (has_column df "wind_speed");
    (discriminate || (intros _; cbn; eauto)).
Qed.

Lemma critical_null_any_null df : critical_null df = true -> any_null df = true.
Proof.
  unfold critical_null, any_null, critical_frame. rewrite !existsb_exists.
  intros (c & Hc & Hnull). apply filter_In in Hc as [Hc _]. eauto.
Qed.

Lemma missing_cols_critical df :
  missing_cols df = [] -> forallb (has_column df) critical_cols = true.
Proof.
  intros Hm. apply forallb_forall. intros col Hcol.
  apply missing_cols_nil; [assumption|].
  apply list_elem_of_In. unfold critical_cols in Hcol. unfold expected_cols.
  cbn in *. tauto.
Qed.
End ValidateFacts.

Section ValidateRuns.
Import Validate.
Implicit Types (df : DataFrame) (log : list line).

Ltac run :=
  unfold Py.bind, Py.when, Py.lift, Py.ret, Py.sys_exit, Py.raise, Py.try_except,
    print, Py.modify.

Lemma check_nulls_run df log :
  check_nulls df log
  = if any_null df
    then match getitem_columns df critical_cols with
         | Py.Return critical =>
             if any_null critical
             then (log ++ null_warning df ++ [CriticalNulls], Py.SysExit 1)
             else (log ++ null_warning df, Py.Return tt)
         | Py.Raise e => (log ++ null_warning df, Py.Raise e)
         | Py.SysExit n => (log ++ null_warning df, Py.SysExit n)
         end
    else (log, Py.Return tt).
Proof.
  unfold check_nulls, null_warning. run.
  destruct (any_null df); [|reflexivity].
  destruct (getitem_columns df critical_cols) as [critical|e|n];
    rewrite <- ?app_assoc; try reflexivity.
  destruct (any_null critical); now rewrite <- ?app_assoc.
Qed.

(** Without a null in a critical field the null check only warns, provided
    the frame has no null at all or holds its four critical columns. *)
Lemma check_nulls_clean df log :
  critical_null df = false ->
  any_null df = false \/ forallb (has_column df) critical_cols = true ->
  check_nulls df log = (log ++ null_warning df, Py.Return tt).
Proof.
  intros Hcrit Hor. rewrite check_nulls_run. unfold null_warning.
  destruct (any_null df) eqn:Hany.
  - destruct Hor as [|Hall]; [discriminate|].
    rewrite (getitem_critical _ Hall). fold (critical_null df). now rewrite Hcrit.
  - now rewrite app_nil_r.
Qed.

Lemma check_schema_run df log :
  check_schema df log
  = if bool_decide (missing_cols df = [])
    then (log, Py.Return tt)
    else (log ++ [MissingExpectedColumns (missing_cols df)], Py.SysExit 1).
Proof. unfold check_schema. run. now destruct (bool_decide _). Qed.

(** The freshness step on a column of timestamps without a missing cell: at
    most a warning, and a normal return. *)
Lemma check_freshness_run df now log cells :
  getitem df "collection_time" = Py.Return (IsoTime cells) ->
  existsb Pandas.isnull cells = false ->
  check_freshness df now log
  = (log ++ stale_warning (omap id cells) now, Py.Return tt).
Proof.
  intros Hcol Hnull. unfold check_freshness, stale_warning. run.
  rewrite (has_column_getitem _ _ _ Hcol), Hcol.
  unfold latest_datetime. rewrite Hnull.
  destruct (forallb Pandas.isnull cells) eqn:E.
  - destruct cells as [|[t|] cells]; [|discriminate|discriminate].
    cbn. now rewrite app_nil_r.
  - destruct (Z_max (omap id cells)) as [t|]; [|now rewrite app_nil_r].
    destruct (max_age <? now - t); [reflexivity|now rewrite app_nil_r].
Qed.

(** Whatever the frame, the freshness step ends the same way at any time. *)
Lemma check_freshness_outcome df now now' log log' :
  snd (check_freshness df now log) = snd (check_freshness df now' log').
Proof.
  unfold check_freshness. run.
  destruct (has_column df "collection_time"); [|reflexivity].
  destruct (getitem df "collection_time") as [c|e|n]; try reflexivity.
  destruct (latest_datetime c) as [[t|]|e|n]; try reflexivity.
  now destruct (max_age <? now - t), (max_age <? now' - t).
Qed.

(** [validate_data] step by step: an exception of a step is reported by the
    handler, which exits; an exit of a step leaves at once. *)
Lemma validate_data_run df now log :
  validate_data (Some df) now log
  = match check_nulls df (log ++ [ValidatingFile]) with
    | (l1, Py.Return _) =>
        match check_schema df l1 with
        | (l2, Py.Return _) =>
            match check_freshness df now l2 with
            | (l3, Py.Return _) => (l3 ++ [ValidationPassed], Py.Return tt)
            | (l3, Py.Raise e) => (l3 ++ [ValidationFailed e], Py.SysExit 1)
            | (l3, Py.SysExit n) => (l3, Py.SysExit n)
            end
        | (l2, Py.Raise e) => (l2 ++ [ValidationFailed e], Py.SysExit 1)
        | (l2, Py.SysExit n) => (l2, Py.SysExit n)
        end
    | (l1, Py.Raise e) => (l1 ++ [ValidationFailed e], Py.SysExit 1)
    | (l1, Py.SysExit n) => (l1, Py.SysExit n)
    end.
Proof.
  unfold validate_data. run.
  destruct (check_nulls df (log ++ [ValidatingFile])) as [l1 [[]|e|n]];
    try reflexivity.
  destruct (check_schema df l1) as [l2 [[]|e|n]]; try reflexivity.
  now destruct (check_freshness df now l2) as [l3 [[]|e|n]].
Qed.

(** A frame with every expected column, no missing critical cell and clean
    collection times passes, whatever its age. *)
Lemma validate_passes df now log cells :
  missing_cols df = [] ->
  critical_null df = false ->
  getitem df "collection_time" = Py.Return (IsoTime cells) ->
  existsb Pandas.isnull cells = false ->
  validate_data (Some df) now log
  = (log ++ [ValidatingFile] ++ null_warning df
         ++ stale_warning (omap id cells) now ++ [ValidationPassed],
     Py.Return tt).
Proof.
  intros Hmiss Hcrit Hcol Hnull.
  rewrite validate_data_run.
  rewrite (check_nulls_clean _ _ Hcrit (or_intror (missing_cols_critical _ Hmiss))).
  rewrite check_schema_run, Hmiss.
  rewrite bool_decide_eq_true_2 by reflexivity.
  rewrite (check_freshness_run _ _ _ _ Hcol Hnull).
  now rewrite <- !app_assoc.
Qed.
End ValidateRuns.

Section ValidateClaims.
Import Validate.
Implicit Types (df : DataFrame) (log : list line).

(** Whether the script exits does not depend on the time it runs at. *)
Lemma validate_outcome_any_time df now now' log :
  snd (validate_data (Some df) now' log) = snd (validate_data (Some df) now log).
Proof.
  rewrite !validate_data_run.
  destruct (check_nulls df (log ++ [ValidatingFile])) as [l1 [[]|e|n]];
    try reflexivity.
  destruct (check_schema df l1) as [l2 [[]|e|n]]; try reflexivity.
  pose proof (check_freshness_outcome df now now' l2 l2) as H.
  destruct (check_freshness df now l2) as [l3 o3],
           (check_freshness df now' l2) as [l3' o3'].
  cbn in H. subst o3'. now destruct o3 as [[]|e|n].
Qed.

(** A batch that misses an expected column, or holds a missing cell in a
    critical column, makes the script exit with status 1. *)
Lemma validate_hard_failure df now log :
  missing_cols df <> [] \/ critical_null df = true ->
  snd (validate_data (Some df) now log) = Py.SysExit 1.
Proof.
  intros Hbad. rewrite validate_data_run, check_nulls_run.
  assert (Hschema : forall l, missing_cols df <> [] ->
            check_schema df l
            = (l ++ [MissingExpectedColumns (missing_cols df)], Py.SysExit 1)).
  { intros l Hm. rewrite check_schema_run. now rewrite bool_decide_eq_false_2. }
  destruct (any_null df) eqn:Hany.
  - destruct (forallb (has_column df) critical_cols) eqn:Hall.
    + rewrite (getitem_critical _ Hall). fold (critical_null df).
      destruct (critical_null df); [reflexivity|].
      destruct Hbad as [Hm|]; [|discriminate]. now rewrite Hschema.
    + destruct (getitem_critical_missing _ Hall) as [cols ->]. reflexivity.
  - destruct Hbad as [Hm|Hc].
    + now rewrite Hschema.
    + apply critical_null_any_null in Hc. congruence.
Qed.

(** C6 (as amended). The null check runs before the schema check.
    (1) A batch that misses a required column, or holds a null in a critical
        field, fails: the script exits with status 1.
    (2) With the four critical columns in the batch and a null in one of
        them, the failure is the critical-null one, whatever else is missing.
    (3) With a required column missing and no null in a critical field, the
        failure is the missing-columns one, provided the batch has no null at
        all or holds its four critical columns.
    (4) With every required column, nulls only outside the critical fields
        and none in [collection_time], the script warns and passes. *)
Theorem validate_failure_kinds df now log :
  (missing_cols df <> [] \/ critical_null df = true ->
   snd (validate_data (Some df) now log) = Py.SysExit 1)
  /\ (forallb (has_column df) critical_cols = true ->
      critical_null df = true ->
      validate_data (Some df) now log
      = (log ++ [ValidatingFile; NullValuesFound; NullCounts (null_counts df);
                 CriticalNulls],
         Py.SysExit 1))
  /\ (missing_cols df <> [] ->
      critical_null df = false ->
      any_null df = false \/ forallb (has_column df) critical_cols = true ->
      validate_data (Some df) now log
      = (log ++ [ValidatingFile] ++ null_warning df
             ++ [MissingExpectedColumns (missing_cols df)],
         Py.SysExit 1))
  /\ (forall cells,
        missing_cols df = [] ->
        critical_null df = false ->
        any_null df = true ->
        getitem df "collection_time" = Py.Return (IsoTime cells) ->
        existsb Pandas.isnull cells = false ->
        validate_data (Some df) now log
        = (log ++ [ValidatingFile; NullValuesFound; NullCounts (null_counts df)]
               ++ stale_warning (omap id cells) now ++ [ValidationPassed],
           Py.Return tt)).
Proof.
  split; [apply validate_hard_failure|]. split; [|split].
  - intros Hall Hcrit.
    rewrite validate_data_run, check_nulls_run.
    rewrite (critical_null_any_null _ Hcrit), (getitem_critical _ Hall).
    fold (critical_null df). rewrite Hcrit.
    unfold null_warning. rewrite (critical_null_any_null _ Hcrit).
    now rewrite <- !app_assoc.
  - intros Hmiss Hcrit Hor.
    rewrite validate_data_run, (check_nulls_clean _ _ Hcrit Hor), check_schema_run.
    rewrite bool_decide_eq_false_2 by assumption.
    now rewrite <- !app_assoc.
  - intros cells Hmiss Hcrit Hany Hcol Hnull.
    rewrite (validate_passes _ _ _ _ Hmiss Hcrit Hcol Hnull).
    unfold null_warning. now rewrite Hany.
Qed.

(** C8. The outcome of the script is the same at any time it runs at; and a
    batch that meets the null and schema checks, whose newest collection time
    is more than 24 hours old, gets the warning line and passes. *)
Theorem stale_batch_passes df now log cells t :
  missing_cols df = [] ->
  critical_null df = false ->
  getitem df "collection_time" = Py.Return (IsoTime cells) ->
  existsb Pandas.isnull cells = false ->
  Z_max (omap id cells) = Some t ->
  max_age < now - t ->
  validate_data (Some df) now log
  = (log ++ [ValidatingFile] ++ null_warning df
         ++ [DataTooOld (now - t); ValidationPassed],
     Py.Return tt)
  /\ forall df' now' log',
       snd (validate_data (Some df') now' log') = snd (validate_data (Some df') now log').
Proof.
  intros Hmiss Hcrit Hcol Hnull Hmax Hold. split.
  - rewrite (validate_passes _ _ _ _ Hmiss Hcrit Hcol Hnull).
    unfold stale_warning. rewrite Hmax.
    now rewrite (proj2 (Z.ltb_lt _ _) Hold).
  - intros df' now' log'. apply validate_outcome_any_time.
Qed.
End ValidateClaims.

(** C6 as stated fails: a batch without its [dt] column, a required one, and
    with an empty [temp] cell fails with the critical-null report, not with
    the missing-columns one. *)
Lemma missing_column_reported_as_critical_null :
  Validate.missing_cols Samples.file_without_dt_null_temp = ["dt"%string]
  /\ Validate.validate_data (Some Samples.file_without_dt_null_temp)
                            Samples.half_an_hour_later []
     = ([Validate.ValidatingFile; Validate.NullValuesFound;
         Validate.NullCounts [("temp"%string, 1%nat)]; Validate.CriticalNulls],
        Py.SysExit 1).
Proof. split; vm_compute; reflexivity. Qed.

Lemma validate_failure_kinds_witness :
  snd (Validate.validate_data (Some Samples.file_without_pressure)
                              Samples.half_an_hour_later []) = Py.SysExit 1
  /\ Validate.validate_data (Some Samples.file_null_wind_speed)
                            Samples.half_an_hour_later []
     = ([] ++ [Validate.ValidatingFile; Validate.NullValuesFound;
               Validate.NullCounts (Validate.null_counts Samples.file_null_wind_speed);
               Validate.CriticalNulls],
        Py.SysExit 1)
  /\ Validate.validate_data (Some Samples.file_without_pressure)
                            Samples.half_an_hour_later []
     = ([] ++ [Validate.ValidatingFile]
            ++ Validate.null_warning Samples.file_without_pressure
            ++ [Validate.MissingExpectedColumns
                  (Validate.missing_cols Samples.file_without_pressure)],
        Py.SysExit 1)
  /\ Validate.validate_data (Some Samples.file_null_weather_main)
                            Samples.half_an_hour_later []
     = ([] ++ [Validate.ValidatingFile; Validate.NullValuesFound;
               Validate.NullCounts (Validate.null_counts Samples.file_null_weather_main)]
            ++ Validate.stale_warning
                 (omap id [Some 1704067200000000000; Some 1704067201000000000])
                 Samples.half_an_hour_later
            ++ [Validate.ValidationPassed],
        Py.Return tt).
Proof.
  split; [|split; [|split]].
  - apply (proj1 (validate_failure_kinds Samples.file_without_pressure
                    Samples.half_an_hour_later [])).
    left. vm_compute. discriminate.
  - apply (proj1 (proj2 (validate_failure_kinds Samples.file_null_wind_speed
                           Samples.half_an_hour_later []))); reflexivity.
  - apply (proj1 (proj2 (proj2 (validate_failure_kinds Samples.file_without_pressure
                                  Samples.half_an_hour_later []))));
      [vm_compute; discriminate | reflexivity | left; reflexivity].
  - apply (proj2 (proj2 (proj2 (validate_failure_kinds Samples.file_null_weather_main
                                  Samples.half_an_hour_later []))));
      reflexivity.
Defined.

Lemma stale_batch_passes_witness :
  Validate.validate_data (Some Samples.raw_file) Samples.two_days_later []
  = ([] ++ [Validate.ValidatingFile] ++ Validate.null_warning Samples.raw_file
        ++ [Validate.DataTooOld (Samples.two_days_later - 1704067201000000000);
            Validate.ValidationPassed],
     Py.Return tt)
  /\ forall df' now' log',
       snd (Validate.validate_data (Some df') now' log')
       = snd (Validate.validate_data (Some df') Samples.two_days_later log').
Proof.
  apply (stale_batch_passes Samples.raw_file Samples.two_days_later []
           [Some 1704067200000000000; Some 1704067201000000000]
           1704067201000000000); reflexivity.
Defined.

(** ** The sort of transform.py *)

Section SortFacts.
Import Pandas.
Implicit Types (keys : list (option Z)) (placed : list nat).

Lemma key_le_total (a b : option Z) : key_le a b = false -> key_le b a = true.
Proof. destruct a, b; cbn; try easy. intros H%Z.leb_gt. apply Z.leb_le. lia. Qed.

Lemma key_le_trans (a b c : option Z) :
  key_le a b = true -> key_le b c = true -> key_le a c = true.
Proof.
  destruct a, b, c; cbn; try easy.
  intros H1%Z.leb_le H2%Z.leb_le. apply Z.leb_le. lia.
Qed.

Lemma key_le_antisym (a b : option Z) :
  key_le a b = true -> key_le b a = true -> a = b.
Proof.
  destruct a, b; cbn; try easy.
  intros H1%Z.leb_le H2%Z.leb_le. f_equal. lia.
Qed.

Lemma position_le_trans keys : Transitive (position_le keys).
Proof. intros i j k. unfold position_le. apply key_le_trans. Qed.

Lemma insert_position_perm keys i placed :
  insert_position keys i placed ≡ₚ i :: placed.
Proof.
  induction placed as [|j placed IH]; [reflexivity|].
  cbn. destruct (key_le _ _); [|reflexivity].
  rewrite IH. apply perm_swap.
Qed.

Lemma insert_position_sorted keys i placed :
  Sorted (position_le keys) placed ->
  Sorted (position_le keys) (insert_position keys i placed).
Proof.
  induction 1 as [|j placed Hs IH Hhd]; cbn.
  - repeat constructor.
  - destruct (key_le (iloc keys j) (iloc keys i)) eqn:E.
    + constructor; [assumption|].
      destruct placed as [|k placed]; cbn.
      * now constructor.
      * destruct (key_le (iloc keys k) (iloc keys i)); constructor;
          [now inversion Hhd|assumption].
    + constructor; [now constructor|].
      constructor. now apply key_le_total.
Qed.

Lemma argsort_stable_indexer keys : sorting_indexer keys (argsort_stable keys).
Proof.
  unfold sorting_indexer, argsort_stable.
  assert (H : forall l placed,
             Sorted (position_le keys) placed ->
             fold_left (fun placed i => insert_position keys i placed) l placed
               ≡ₚ l ++ placed
             /\ Sorted (position_le keys)
                  (fold_left (fun placed i => insert_position keys i placed) l placed)).
  { induction l as [|i l IH]; intros placed Hs; [easy|].
    cbn [fold_left]. destruct (IH (insert_position keys i placed)) as [Hp Hs'].
    - now apply insert_position_sorted.
    - split; [|assumption].
      rewrite Hp, insert_position_perm. cbn. now rewrite Permutation_middle. }
  destruct (H (seq 0 (length keys)) []) as [Hp Hs]; [constructor|].
  now rewrite app_nil_r in Hp.
Qed.

(** Positions with pairwise distinct keys have one ascending order. *)
Lemma sorting_indexer_unique keys idx1 idx2 :
  NoDup keys ->
  sorting_indexer keys idx1 -> sorting_indexer keys idx2 -> idx1 = idx2.
Proof.
  intros Hnd [Hp1 Hs1] [Hp2 Hs2].
  apply (@Sorted_unique_strong _ (position_le keys) (position_le_trans keys));
    [|assumption|assumption|now rewrite Hp1, Hp2].
  intros i j Hi Hj Hij Hji.
  rewrite Hp1 in Hi. rewrite Hp2 in Hj.
  apply elem_of_seq in Hi, Hj.
  pose proof (key_le_antisym _ _ Hij Hji) as Heq. unfold iloc in Heq.
  destruct (keys !! i) as [a|] eqn:Ei; [|apply lookup_ge_None_1 in Ei; lia].
  destruct (keys !! j) as [b|] eqn:Ej; [|apply lookup_ge_None_1 in Ej; lia].
  subst b. eapply NoDup_lookup; eassumption.
Qed.
End SortFacts.

Section SortDetermined.
Import Pandas Transform.

(** When the timestamps of a batch are pairwise distinct, every sort that
    returns the rows in ascending order of [dt_txt], stable or not, returns
    the frame the stable sort returns. *)
Theorem sort_values_determined {F : Type}
    (argsort : list (option Z) -> list nat) (df : list (RawObservation F)) :
  sorting_indexer (map dt_txt df) (argsort (map dt_txt df)) ->
  NoDup (map dt_txt df) ->
  sort_values argsort dt_txt df = sort_values argsort_stable dt_txt df.
Proof.
  intros Hidx Hnd. unfold sort_values. f_equal.
  apply (sorting_indexer_unique (map dt_txt df)); [assumption|assumption|].
  apply argsort_stable_indexer.
Qed.
End SortDetermined.

Lemma sort_values_determined_witness :
  Pandas.sort_values Samples.argsort_ties_reversed Transform.dt_txt Samples.batch5
  = Pandas.sort_values Pandas.argsort_stable Transform.dt_txt Samples.batch5.
Proof.
  apply (sort_values_determined Samples.argsort_ties_reversed Samples.batch5).
  - replace (Samples.argsort_ties_reversed (map Transform.dt_txt Samples.batch5))
      with (Pandas.argsort_stable (map Transform.dt_txt Samples.batch5))
      by (vm_compute; reflexivity).
    apply argsort_stable_indexer.
  - apply (bool_decide_unpack _). vm_compute. exact I.
Defined.

(** Equal timestamps leave the order open: on two records with the same
    [dt_txt], both orders are ascending, and the two insertion sorts return
    the one and the other. *)
Lemma tie_order_not_determined :
  Pandas.sorting_indexer (map Transform.dt_txt Samples.batch_tie)
    (Pandas.argsort_stable (map Transform.dt_txt Samples.batch_tie))
  /\ Pandas.sorting_indexer (map Transform.dt_txt Samples.batch_tie)
       (Samples.argsort_ties_reversed (map Transform.dt_txt Samples.batch_tie))
  /\ Pandas.argsort_stable (map Transform.dt_txt Samples.batch_tie) = [0; 1]%nat
  /\ Samples.argsort_ties_reversed (map Transform.dt_txt Samples.batch_tie)
     = [1; 0]%nat.
Proof.
  split; [apply argsort_stable_indexer|]. split; [|split; reflexivity].
  split.
  - apply perm_swap.
  - repeat constructor.
Qed.

(** ** Further properties *)

Section FurtherTransform.
Import Pandas Transform.

(** The calendar features lie in their ranges: hour 0-23, day of the week
    0-6, month 1-12. *)
Theorem calendar_ranges (t : Z) :
  0 <= dt_hour t <= 23 /\ 0 <= dt_dayofweek t <= 6 /\ 1 <= dt_month t <= 12.
Proof.
  unfold dt_hour, dt_dayofweek, dt_month.
  split; [|split].
  - pose proof (Z.mod_pos_bound (t / ns_per_hour) 24). lia.
  - pose proof (Z.mod_pos_bound (t / ns_per_day + 3) 7). lia.
  - cbv zeta.
    set (z := t / ns_per_day + 719468).
    set (era := z / 146097).
    set (doe := z - era * 146097).
    assert (Hdoe : 0 <= doe <= 146096).
    { subst doe era. pose proof (Z.mod_pos_bound z 146097) as Hmod.
      rewrite Z.mod_eq in Hmod by lia. lia. }
    clearbody doe. clear z era.
    set (yoe := (doe - doe / 1460 + doe / 36524 - doe / 146096) / 365).
    set (doy := doe - (365 * yoe + yoe / 4 - yoe / 100)).
    assert (Hdoy : 0 <= doy <= 365).
    { subst doy yoe. Z.to_euclidean_division_equations. lia. }
    clearbody doy.
    destruct (Z.ltb_spec ((5 * doy + 2) / 153) 10);
      Z.to_euclidean_division_equations; lia.
Qed.

(** 2024-01-01 00:00:00 was a Monday, and 2024-02-29 15:00:00 a Thursday in
    February. *)
Example calendar_2024 :
  (dt_hour 1704067200000000000, dt_dayofweek 1704067200000000000,
   dt_month 1704067200000000000) = (0, 0, 1)
  /\ (dt_hour 1709218800000000000, dt_dayofweek 1709218800000000000,
      dt_month 1709218800000000000) = (15, 3, 2).
Proof. split; reflexivity. Qed.

(** The lag of a row is the value of the row before it, the target the
    temperature of the row after it; the first row has no lag and the last no
    target. *)
Theorem lag_and_target {F : Type} `{Number F} (df : list (RawObservation F))
    (i : nat) (r : FeatureRow F) :
  feature_engineering df !! i = Some r ->
  temp_lag_1 r = match i with O => None | S j => iloc (map temp df) j end
  /\ humidity_lag_1 r = match i with O => None | S j => iloc (map humidity df) j end
  /\ target_temp r = iloc (map temp df) (S i).
Proof.
  rewrite lookup_feature_engineering.
  destruct (df !! i) as [r0|] eqn:E; [|discriminate].
  intros [= <-]. pose proof (lookup_lt_Some _ _ _ E) as Hi.
  cbn [temp_lag_1 humidity_lag_1 target_temp].
  rewrite iloc_shift_lead. destruct i as [|j].
  - now rewrite !iloc_shift_lag_0.
  - now rewrite !iloc_shift_lag_S by (rewrite length_map; lia).
Qed.
End FurtherTransform.

Lemma lag_and_target_witness :
  exists r,
    Transform.feature_engineering Samples.batch3 !! 1%nat = Some r
    /\ Transform.temp_lag_1 r = Some 20%float
    /\ Transform.target_temp r = Some 22%float.
Proof.
  eexists. split; [reflexivity|].
  match goal with
  | |- Transform.temp_lag_1 ?r = _ /\ _ =>
      destruct (lag_and_target Samples.batch3 1 r eq_refl) as (-> & _ & ->)
  end.
  split; reflexivity.
Defined.

Section FurtherApi.
Import Api.

(** Drift detection touches the gauges only. *)
Lemma drift_detection_counters (ts : list (string * Stats)) (features : Features)
    (m : Metrics) :
  let m' := fst (drift_detection ts features m) in
  PREDICTION_COUNT m' = PREDICTION_COUNT m
  /\ PREDICTION_LATENCY m' = PREDICTION_LATENCY m
  /\ PREDICTION_ERRORS m' = PREDICTION_ERRORS m.
Proof.
  cbv zeta. rewrite drift_detection_run. cbv zeta. cbn [fst].
  destruct (publish_frame features ts m) as (Hc & Hl & He & _).
  now destruct (0 <? length ts)%nat.
Qed.

(** The counters bracket the whole call: every call counts one request and
    one latency observation; the error counter moves exactly when the call
    raises; and with a model that answers, drift detection never makes the
    call fail. *)
Theorem predict_counters (svc : Service) (request : PredictionRequest)
    (m : Metrics) :
  let m' := fst (predict svc request m) in
  let o := snd (predict svc request m) in
  PREDICTION_COUNT m' = S (PREDICTION_COUNT m)
  /\ PREDICTION_LATENCY m' = S (PREDICTION_LATENCY m)
  /\ PREDICTION_ERRORS m'
     = match o with
       | Py.Raise _ => S (PREDICTION_ERRORS m)
       | _ => PREDICTION_ERRORS m
       end
  /\ forall mdl p,
       model svc = Some mdl ->
       mdl (request_frame request) = Py.Return p ->
       o = Py.Return {| predicted_temp := p |}.
Proof.
  cbv zeta. destruct (model svc) as [mdl|] eqn:Hm.
  - rewrite (predict_loaded _ _ _ _ Hm). cbv zeta.
    destruct (drift_detection_counters (training_stats svc) (request_frame request)
                (inc_count m)) as (Hc & Hl & He).
    destruct (mdl (request_frame request)) as [p|e|n] eqn:Hp;
      cbn [fst snd PREDICTION_COUNT PREDICTION_LATENCY PREDICTION_ERRORS
           observe_latency inc_errors];
      rewrite Hc, Hl, He; (repeat split; try reflexivity);
      intros mdl' p' [= <-] Hp'; congruence.
  - rewrite (predict_unloaded _ _ _ Hm). cbn.
    repeat split. intros mdl p Hmdl. discriminate.
Qed.

(** [health_check] reads the state only: a successful load makes the service
    healthy, a failed one leaves it as it was, and it starts unhealthy. *)
Theorem load_model_health (fetched : Py.outcome Model) (svc : Service) :
  health_check (load_model fetched svc)
  = match fetched with
    | Py.Return _ => {| status := "healthy"; model_loaded := true |}
    | _ => health_check svc
    end
  /\ health_check unloaded = {| status := "unhealthy"; model_loaded := false |}.
Proof. split; [now destruct fetched|reflexivity]. Qed.

(** After a successful startup the profile is the two built-in entries, both
    carried by every request, so the published ratio is 0, 0.5 or 1. *)
Theorem startup_ratio_levels (mdl : Model) (svc : Service)
    (request : PredictionRequest) (m : Metrics) :
  let ready := load_model (Py.Return mdl) svc in
  let ratio := OOD_RATIO (fst (predict ready request m)) in
  ratio = 0%float \/ ratio = 0.5%float \/ ratio = 1%float.
Proof.
  cbv zeta.
  destruct (predict_gauges (load_model (Py.Return mdl) svc) request m mdl eq_refl)
    as [-> _].
  rewrite drift_detection_run. cbn [load_model training_stats length Nat.ltb Nat.leb fst].
  cbn [OOD_RATIO set_ood_ratio List.filter].
  destruct (counted (request_frame request) ("temp"%string, _)),
           (counted (request_frame request) ("humidity"%string, _));
    cbn [length]; vm_compute; tauto.
Qed.
End FurtherApi.

(** ** transform.py: which rows survive *)

Section TransformRows.
Import Pandas Transform.
Context {F : Type} `{Number F}.
Implicit Types df : list (RawObservation F).

(** A window of three rows that lies in the column. *)
Lemma window_of_three {A} (s : list (option A)) (i : nat) :
  (S (S i) < length s)%nat ->
  take 3 (drop i s) = [iloc s i; iloc s (S i); iloc s (S (S i))].
Proof.
  intros Hi. apply list_eq. intros j. rewrite lookup_take, lookup_drop.
  unfold iloc.
  destruct (lookup_lt_is_Some_2 s i) as [a Ha]; [lia|].
  destruct (lookup_lt_is_Some_2 s (S i)) as [b Hb]; [lia|].
  destruct (lookup_lt_is_Some_2 s (S (S i))) as [c Hc]; [lia|].
  rewrite Ha, Hb, Hc.
  destruct j as [|[|[|j]]]; cbn.
  - now rewrite Nat.add_0_r.
  - now rewrite Nat.add_1_r.
  - now replace (i + 2)%nat with (S (S i)) by lia.
  - reflexivity.
Qed.

(** The rolling aggregate of window 3 at the third row and after: the
    aggregate of the row's value and the two before it, when all three are
    present. *)
Lemma rolling_at_three {A B} (agg : list A -> B) (s : list (option A)) (i : nat) :
  (S (S i) < length s)%nat ->
  rolling_at 3 agg s (S (S i))
  = match iloc s i, iloc s (S i), iloc s (S (S i)) with
    | Some a, Some b, Some c => Some (agg [a; b; c])
    | _, _, _ => None
    end.
Proof.
  intros Hi. unfold rolling_at.
  change (S (S (S i)) <? 3)%nat with false.
  replace (S (S (S i)) - 3)%nat with i by lia.
  rewrite window_of_three by assumption.
  now destruct (iloc s i), (iloc s (S i)), (iloc s (S (S i))).
Qed.

Lemma iloc_map_lookup {B} (g : RawObservation F -> option B) df i r :
  df !! i = Some r -> iloc (map g df) i = g r.
Proof. intros E. unfold iloc. now rewrite list_lookup_fmap, E. Qed.

(** [row_notnull] of a feature row, in terms of the batch. *)
Lemma row_notnull_at df (i : nat) (r : FeatureRow F) :
  feature_engineering df !! i = Some r ->
  row_notnull r
  = raw_notnull (raw r)
    && (2 <=? i)%nat
    && notnull (iloc (map temp df) (i - 2))
    && notnull (iloc (map temp df) (i - 1))
    && notnull (iloc (map humidity df) (i - 1))
    && notnull (iloc (map temp df) (S i)).
Proof.
  rewrite lookup_feature_engineering.
  destruct (df !! i) as [r0|] eqn:E; [|discriminate].
  intros [= <-]. pose proof (lookup_lt_Some _ _ _ E) as Hi.
  unfold row_notnull. cbn [raw hour day_of_week month temp_lag_1 humidity_lag_1
    temp_rolling_mean_3 temp_rolling_std_3 target_temp].
  destruct (raw_notnull r0) eqn:Hraw; [|reflexivity].
  destruct (raw_notnull_fields _ Hraw) as (Hdt & Ht & _).
  destruct (dt_txt r0) as [t|]; [|discriminate].
  cbn [fmap option_fmap option_map notnull isnull negb andb].
  rewrite iloc_shift_lead, !iloc_rolling by (rewrite length_map; lia).
  destruct i as [|[|i]].
  - rewrite iloc_shift_lag_0. reflexivity.
  - rewrite (rolling_at_short 3 mean), (rolling_at_short 3 std) by lia.
    cbn. now rewrite !andb_false_r.
  - rewrite !iloc_shift_lag_S by (rewrite length_map; lia).
    rewrite !rolling_at_three by (rewrite length_map; lia).
    rewrite (iloc_map_lookup temp df (S (S i)) r0 E).
    replace (S (S i) - 2)%nat with i by lia.
    replace (S (S i) - 1)%nat with (S i) by lia.
    destruct (temp r0); [|discriminate].
    destruct (iloc (map temp df) i), (iloc (map temp df) (S i)),
      (iloc (map humidity df) (S i)), (iloc (map temp df) (S (S (S i))));
      reflexivity.
Qed.


(** No batch gives more than [n - 3] rows, and the rows that come out are
    rows of the sorted batch, in its order. *)
Lemma filter_within {A} (P : A -> Prop) `{!forall x, Decision (P x)}
    (l : list A) (a b : nat) :
  (forall i x, l !! i = Some x -> P x -> (a <= i < b)%nat) ->
  (length (filter P l) <= b - a)%nat.
Proof.
  revert a b. induction l as [|x l IH]; intros a b Hl; [cbn; lia|].
  destruct (decide (P x)) as [HP|HP].
  - rewrite filter_cons_True by assumption. cbn [length].
    pose proof (Hl 0%nat x eq_refl HP) as Hx0.
    assert (Ha : a = 0%nat) by lia. subst a.
    specialize (IH 0%nat (b - 1)%nat).
    assert (length (filter P l) <= b - 1 - 0)%nat; [|lia].
    apply IH. intros i y Hy Py. pose proof (Hl (S i) y Hy Py). lia.
  - rewrite filter_cons_False by assumption.
    specialize (IH (a - 1)%nat (b - 1)%nat).
    assert (length (filter P l) <= b - 1 - (a - 1))%nat; [|lia].
    apply IH. intros i y Hy Py. pose proof (Hl (S i) y Hy Py). lia.
Qed.
End TransformRows.

Section TransformBounds.
Import Pandas Transform.
Context {F : Type} `{Number F}.
Implicit Types df : list (RawObservation F).

(** Taking the rows at all positions, in order, gives the frame back. *)
Lemma take_rows_all {R} (l : list R) : take_rows l (seq 0 (length l)) = l.
Proof.
  unfold take_rows.
  assert (Hgen : forall prefix,
             omap (fun i => (prefix ++ l) !! i) (seq (length prefix) (length l)) = l).
  { induction l as [|x l IH]; intros prefix; [reflexivity|].
    cbn [length seq].
    change (omap ?f (?a :: ?k))
      with (match f a with Some y => y :: omap f k | None => omap f k end).
    cbv beta. rewrite lookup_app_r by lia. rewrite Nat.sub_diag. cbn [lookup list_lookup].
    f_equal. specialize (IH (prefix ++ [x])).
    rewrite <- app_assoc, length_app in IH. cbn in IH.
    now rewrite Nat.add_1_r in IH. }
  exact (Hgen []).
Qed.

(** A sort whose indexer names every position once keeps every record once. *)
Lemma sort_values_permutation {R K} (argsort : list K -> list nat)
    (by_ : R -> K) (l : list R) :
  argsort (map by_ l) ≡ₚ seq 0 (length (map by_ l)) ->
  sort_values argsort by_ l ≡ₚ l.
Proof.
  intros Hp. unfold sort_values.
  rewrite length_map in Hp.
  transitivity (take_rows l (seq 0 (length l))).
  - unfold take_rows. now rewrite Hp.
  - now rewrite take_rows_all.
Qed.

(** Whatever the batch holds, the transform returns at most [n - 3] rows,
    and they are rows of the sorted batch, in its order. When the indexer of
    the sort names every position once, they are records of the batch, none
    of them used twice. *)
Theorem transform_rows_bound (argsort : list (option Z) -> list nat) df :
  (length (transform_frame argsort df)
   <= length (sort_values argsort dt_txt df) - 3)%nat
  /\ map raw (transform_frame argsort df)
       `sublist_of` sort_values argsort dt_txt df
  /\ (argsort (map dt_txt df) ≡ₚ seq 0 (length (map dt_txt df)) ->
      map raw (transform_frame argsort df) ⊆+ df).
Proof.
  unfold transform_frame. set (sorted := sort_values argsort dt_txt df).
  assert (Hsub : map raw (dropna (feature_engineering sorted)) `sublist_of` sorted).
  { rewrite <- (raw_feature_engineering sorted) at 2.
    apply fmap_sublist. unfold dropna. apply sublist_filter. }
  split; [|split; [exact Hsub|]].
  - unfold dropna.
    replace (length sorted - 3)%nat with (length sorted - 1 - 2)%nat by lia.
    apply filter_within. intros i r Hr Hnotnull.
    rewrite (row_notnull_at sorted i r Hr) in Hnotnull.
    rewrite !andb_true_iff in Hnotnull.
    destruct Hnotnull as (((((_ & Hi) & _) & _) & _) & Hnext).
    apply Nat.leb_le in Hi.
    destruct (decide (S i < length sorted)%nat) as [Hlt|Hge]; [lia|].
    unfold iloc in Hnext. rewrite lookup_ge_None_2 in Hnext
      by (rewrite length_map; lia). discriminate.
  - intros Hp. apply sublist_submseteq in Hsub.
    pose proof (sort_values_permutation argsort dt_txt df Hp) as Hs.
    fold sorted in Hs. etransitivity; [exact Hsub|].
    now apply Permutation_submseteq.
Qed.
End TransformBounds.

Section TransformGaps.
Import Pandas Transform.
Context {F : Type} `{Number F}.
Implicit Types df : list (RawObservation F).

(** One missing temperature costs up to four feature rows: the row itself,
    the row before it (its target), and the two rows after it (their lag and
    their rolling window). *)
Theorem missing_temp_drops_neighbours df (k i : nat) (r : FeatureRow F) :
  iloc (map temp df) k = None ->
  (k < length df)%nat ->
  feature_engineering df !! i = Some r ->
  (S i = k \/ i = k \/ i = S k \/ i = S (S k)) ->
  row_notnull r = false.
Proof.
  intros Hk Hlt Hr Hi. rewrite (row_notnull_at df i r Hr).
  destruct Hi as [Hi|[Hi|[Hi|Hi]]]; subst.
  - rewrite Hk. cbn. now rewrite !andb_false_r.
  - rewrite lookup_feature_engineering in Hr.
    destruct (df !! k) as [r0|] eqn:E; [|discriminate].
    injection Hr as <-. cbn [raw].
    rewrite (iloc_map_lookup temp df k r0 E) in Hk.
    unfold raw_notnull. rewrite Hk. cbn. now rewrite !andb_false_r.
  - replace (S k - 1)%nat with k by lia. rewrite Hk. cbn. now rewrite !andb_false_r.
  - replace (S (S k) - 2)%nat with k by lia. rewrite Hk. cbn. now rewrite !andb_false_r.
Qed.
End TransformGaps.


Lemma missing_temp_drops_neighbours_witness :
  exists r,
    Transform.feature_engineering MoreSamples.batch_gap !! 5%nat = Some r
    /\ Transform.row_notnull r = false.
Proof.
  eexists. split; [reflexivity|].
  match goal with
  | |- Transform.row_notnull ?r = _ =>
      apply (missing_temp_drops_neighbours MoreSamples.batch_gap 3 5 r);
        [reflexivity | vm_compute; lia | reflexivity | right; right; right; reflexivity]
  end.
Defined.

Lemma transform_rows_bound_witness :
  (length (Transform.transform_frame Pandas.argsort_stable MoreSamples.batch_gap)
   <= length (Pandas.sort_values Pandas.argsort_stable Transform.dt_txt
                                 MoreSamples.batch_gap) - 3)%nat
  /\ map Transform.raw
         (Transform.transform_frame Pandas.argsort_stable MoreSamples.batch_gap)
       `sublist_of` Pandas.sort_values Pandas.argsort_stable Transform.dt_txt
                                       MoreSamples.batch_gap
  /\ map Transform.raw
         (Transform.transform_frame Pandas.argsort_stable MoreSamples.batch_gap)
       ⊆+ MoreSamples.batch_gap.
Proof.
  destruct (transform_rows_bound Pandas.argsort_stable MoreSamples.batch_gap)
    as (Hlen & Hsub & Hin).
  split; [exact Hlen|]. split; [exact Hsub|].
  apply Hin. apply (proj1 (argsort_stable_indexer _)).
Defined.

(** The batch with the gap: eight records in, one feature row out. *)
Example batch_gap_rows :
  map (fun r => Transform.dt (Transform.raw r))
      (Transform.transform_frame Pandas.argsort_stable MoreSamples.batch_gap)
  = [Some 1704132000].
Proof. reflexivity. Qed.

(** ** validate.py: how the script ends *)

Section ValidateEnds.
Import Validate.
Implicit Types (df : DataFrame) (log : list line).

Lemma check_nulls_outcome df log :
  snd (check_nulls df log) = Py.Return tt
  \/ snd (check_nulls df log) = Py.SysExit 1
  \/ exists e, snd (check_nulls df log) = Py.Raise e.
Proof.
  rewrite check_nulls_run.
  destruct (any_null df); [|now left].
  unfold getitem_columns.
  destruct (List.filter _ critical_cols); [|right; right; eauto].
  destruct (any_null _); [right; left|left]; reflexivity.
Qed.

Lemma check_freshness_outcomes df now log :
  snd (check_freshness df now log) = Py.Return tt
  \/ exists e, snd (check_freshness df now log) = Py.Raise e.
Proof.
  unfold check_freshness, Py.bind, Py.when, Py.lift, Py.ret, print, Py.modify.
  destruct (has_column df "collection_time"); [|now left].
  unfold getitem. destruct (list_find _ df) as [[i [col c]]|]; [|right; eauto].
  assert (Hl : (exists o, latest_datetime c = Py.Return o)
               \/ exists e, latest_datetime c = Py.Raise e).
  { unfold latest_datetime. destruct c as [cells|cells|cells].
    - destruct (float_max _) as [x|]; [|left; eauto].
      destruct (PrimFloat.is_nan x); left; eauto.
    - destruct (forallb _ cells); [left; eauto|].
      destruct (existsb _ cells); right; eauto.
    - destruct (forallb _ cells); [left; eauto|].
      destruct (existsb _ cells); [right|left]; eauto. }
  destruct Hl as [[o ->]|[e ->]]; [|right; eauto].
  left. destruct o as [t|]; [|reflexivity].
  now destruct (max_age <? now - t).
Qed.

(** [validate_data] ends in one of two ways: it returns, or it exits with
    status 1. No exception leaves it, whatever the frame holds. *)
Theorem validate_ends (latest_file : option DataFrame) (now : Z) log :
  snd (validate_data latest_file now log) = Py.Return tt
  \/ snd (validate_data latest_file now log) = Py.SysExit 1.
Proof.
  destruct latest_file as [df|]; [|right; reflexivity].
  rewrite validate_data_run.
  pose proof (check_nulls_outcome df (log ++ [ValidatingFile])) as Hn.
  destruct (check_nulls df (log ++ [ValidatingFile])) as [l1 o1]. cbn [snd] in Hn.
  destruct Hn as [->|[->|[e ->]]]; [|now right|now right].
  rewrite check_schema_run.
  destruct (bool_decide (missing_cols df = [])); [|now right].
  pose proof (check_freshness_outcomes df now l1) as Hf.
  destruct (check_freshness df now l1) as [l3 o3]. cbn [snd] in Hf.
  destruct Hf as [->|[e ->]]; [now left|now right].
Qed.

(** When the script returns. *)
Lemma validate_returns df (now : Z) log :
  snd (validate_data (Some df) now log) = Py.Return tt
  <-> missing_cols df = [] /\ critical_null df = false
      /\ freshness_readable df = true.
Proof.
  split.
  - intros Hpass.
    destruct (decide (missing_cols df = [])) as [Hm|Hm].
    2:{ rewrite (validate_hard_failure df now log (or_introl Hm)) in Hpass.
        discriminate. }
    destruct (critical_null df) eqn:Hc.
    { rewrite (validate_hard_failure df now log (or_intror Hc)) in Hpass.
      discriminate. }
    split; [assumption|]. split; [reflexivity|].
    rewrite validate_data_run in Hpass.
    rewrite (check_nulls_clean _ _ Hc (or_intror (missing_cols_critical _ Hm)))
      in Hpass.
    rewrite check_schema_run, Hm, bool_decide_eq_true_2 in Hpass by reflexivity.
    unfold freshness_readable.
    unfold check_freshness, Py.bind, Py.when, Py.lift, Py.ret in Hpass.
    assert (Hcol : has_column df "collection_time" = true).
    { apply missing_cols_nil; [assumption|]. unfold expected_cols.
      apply list_elem_of_In. cbn. tauto. }
    rewrite Hcol in Hpass.
    destruct (getitem df "collection_time") as [c|e|n]; try discriminate.
    now destruct (latest_datetime c) as [o|e|n]; try discriminate.
  - intros (Hm & Hc & Hf).
    rewrite validate_data_run.
    rewrite (check_nulls_clean _ _ Hc (or_intror (missing_cols_critical _ Hm))).
    rewrite check_schema_run, Hm, bool_decide_eq_true_2 by reflexivity.
    unfold freshness_readable in Hf.
    unfold check_freshness, Py.bind, Py.when, Py.lift, Py.ret, print, Py.modify.
    destruct (getitem df "collection_time") as [c|e|n] eqn:Hcol; try discriminate.
    rewrite (has_column_getitem _ _ _ Hcol).
    destruct (latest_datetime c) as [[t|]|e|n]; try discriminate; [|reflexivity].
    now destruct (max_age <? now - t).
Qed.

(** On a frame whose collection times are ISO timestamps, as extract.py
    writes them, the script passes exactly when no expected column is
    missing, no cell of a critical column is missing, and the collection
    times are all there (or all missing, the column then holding nothing to
    compare). The time of the run plays no part. *)
Theorem validate_pass_iff df (now : Z) log (cells : list (option Z)) :
  getitem df "collection_time" = Py.Return (IsoTime cells) ->
  snd (validate_data (Some df) now log) = Py.Return tt
  <-> missing_cols df = [] /\ critical_null df = false
      /\ (existsb Pandas.isnull cells = false \/ forallb Pandas.isnull cells = true).
Proof.
  intros Hcol. rewrite validate_returns. unfold freshness_readable.
  rewrite Hcol. unfold latest_datetime.
  destruct (forallb Pandas.isnull cells), (existsb Pandas.isnull cells);
    intuition congruence.
Qed.

(** A batch with every expected column and no missing cell, whose newest
    collection time is at most 24 hours old, passes without a warning: the
    script prints the file line and the success line, and nothing else. An
    age of exactly 24 hours is not stale. *)
Theorem fresh_batch_passes_silently df (now : Z) log cells t :
  missing_cols df = [] ->
  any_null df = false ->
  getitem df "collection_time" = Py.Return (IsoTime cells) ->
  Z_max (omap id cells) = Some t ->
  now - t <= max_age ->
  validate_data (Some df) now log
  = (log ++ [ValidatingFile; ValidationPassed], Py.Return tt).
Proof.
  intros Hm Hany Hcol Hmax Hage.
  assert (Hc : critical_null df = false).
  { destruct (critical_null df) eqn:E; [|reflexivity].
    apply critical_null_any_null in E. congruence. }
  assert (Hcells : existsb Pandas.isnull cells = false).
  { unfold getitem in Hcol.
    destruct (list_find _ df) as [[i [col c]]|] eqn:E; [|discriminate].
    injection Hcol as ->. apply list_find_Some in E as (Hi & _ & _).
    unfold any_null in Hany.
    destruct (existsb Pandas.isnull cells) eqn:Hex; [|reflexivity].
    exfalso. apply not_true_iff_false in Hany. apply Hany.
    apply existsb_exists. exists (col, IsoTime cells). split.
    - apply list_elem_of_In. eapply list_elem_of_lookup_2, Hi.
    - cbn [snd null_count]. apply Nat.ltb_lt.
      apply existsb_exists in Hex as (c & Hin & Hnull).
      assert (In c (List.filter Pandas.isnull cells)) as Hf
          by (apply filter_In; tauto).
      destruct (List.filter Pandas.isnull cells); [destruct Hf|cbn; lia]. }
  rewrite (validate_passes _ _ _ _ Hm Hc Hcol Hcells).
  unfold null_warning, stale_warning. rewrite Hany, Hmax.
  now rewrite (proj2 (Z.ltb_ge _ _) Hage).
Qed.
End ValidateEnds.

Section ValidateExtraColumn.
Import Validate.
Implicit Types (df : DataFrame) (log : list line).

Lemma has_column_insert df1 df2 name c col :
  col <> name ->
  has_column (df1 ++ (name, c) :: df2) col = has_column (df1 ++ df2) col.
Proof.
  intros Hne. unfold has_column, columns. apply bool_decide_ext.
  rewrite !map_app. cbn [map fst].
  rewrite !elem_of_app, elem_of_cons. tauto.
Qed.

Lemma getitem_insert df1 df2 name c col :
  col <> name ->
  getitem (df1 ++ (name, c) :: df2) col = getitem (df1 ++ df2) col.
Proof.
  intros Hne. unfold getitem.
  induction df1 as [|[col' c'] df1 IH]; cbn [app list_find].
  - cbn [fst]. rewrite decide_False by congruence.
    now destruct (list_find _ df2) as [[i [k v]]|].
  - cbn [fst]. destruct (decide (col' = col)); [reflexivity|].
    destruct (list_find _ (df1 ++ (name, c) :: df2)) as [[i [k v]]|],
             (list_find _ (df1 ++ df2)) as [[j [k' v']]|];
      cbn in *; congruence.
Qed.

Lemma filter_columns_insert (cols : list string) df1 df2 name c :
  name ∉ cols ->
  List.filter (fun col => negb (has_column (df1 ++ (name, c) :: df2) col)) cols
  = List.filter (fun col => negb (has_column (df1 ++ df2) col)) cols.
Proof.
  intros Hname. apply filter_ext_in. intros col Hcol.
  rewrite has_column_insert; [reflexivity|].
  intros ->. apply Hname. now apply list_elem_of_In.
Qed.

(** A column that is not among the expected ones and holds no missing cell
    makes no difference to the validator: the script prints the same lines
    and ends the same way with it and without it. *)
Theorem extra_column_ignored df1 df2 (name : string) (c : Column) (now : Z) log :
  name ∉ expected_cols ->
  null_count c = 0%nat ->
  validate_data (Some (df1 ++ (name, c) :: df2)) now log
  = validate_data (Some (df1 ++ df2)) now log.
Proof.
  intros Hname Hnull.
  assert (Hcrit : name ∉ critical_cols).
  { intros Hin. apply Hname. unfold critical_cols in Hin. unfold expected_cols.
    apply list_elem_of_In. apply list_elem_of_In in Hin. cbn in *. tauto. }
  assert (Hany : any_null (df1 ++ (name, c) :: df2) = any_null (df1 ++ df2)).
  { unfold any_null. rewrite !existsb_app. cbn [existsb snd]. now rewrite Hnull. }
  assert (Hcounts : null_counts (df1 ++ (name, c) :: df2) = null_counts (df1 ++ df2)).
  { unfold null_counts. rewrite !map_app, !List.filter_app.
    cbn [map List.filter fst snd]. now rewrite Hnull. }
  assert (Hget : getitem_columns (df1 ++ (name, c) :: df2) critical_cols
                 = getitem_columns (df1 ++ df2) critical_cols).
  { unfold getitem_columns.
    rewrite filter_columns_insert by assumption.
    destruct (List.filter _ critical_cols); [|reflexivity].
    rewrite !List.filter_app. cbn [List.filter fst].
    now rewrite bool_decide_eq_false_2. }
  assert (Hmiss : missing_cols (df1 ++ (name, c) :: df2) = missing_cols (df1 ++ df2)).
  { unfold missing_cols. now apply filter_columns_insert. }
  assert (Htime : name <> "collection_time"%string).
  { intros ->. apply Hname. unfold expected_cols. apply list_elem_of_In.
    cbn. tauto. }
  unfold validate_data, check_nulls, check_schema, check_freshness.
  rewrite Hany, Hcounts, Hget, Hmiss.
  rewrite (has_column_insert df1 df2 name c "collection_time") by congruence.
  rewrite (getitem_insert df1 df2 name c "collection_time") by congruence.
  reflexivity.
Qed.
End ValidateExtraColumn.

(** ** api/app/main.py: what [predict] writes *)

Section ApiWrites.
Import Api FloatAxioms.
Implicit Types (features : Features) (ts : list (string * Stats)) (m : Metrics).

(** A z-score is an absolute value: it is never below zero. *)
Lemma z_score_not_negative (val : float) (st : Stats) :
  PrimFloat.ltb (z_score val st) 0 = false.
Proof.
  unfold z_score. rewrite ltb_spec, abs_spec.
  change (Prim2SF 0) with (S754_zero false).
  now destruct (Prim2SF _) as [s|s| |s mx ex].
Qed.

(** Whether a request carries a column does not depend on the request. *)
Lemma carried_by_every_request (r1 r2 : PredictionRequest) (col : string) :
  column_value (request_frame r1) col = None
  <-> column_value (request_frame r2) col = None.
Proof.
  unfold column_value, request_frame. cbn [List.find fst].
  repeat (destruct (String.eqb _ col); [cbn; split; discriminate|]).
  reflexivity.
Qed.

(** A label the loop does not write keeps its gauge. *)
Lemma publish_unwritten features ts m (l : string) :
  l ∉ map fst ts \/ column_value features l = None ->
  FEATURE_MEAN_SHIFT (fold_left (publish features) ts m) !! l
  = FEATURE_MEAN_SHIFT m !! l.
Proof.
  revert m. induction ts as [|[c st] ts IH]; intros m Hl; [reflexivity|].
  cbn [fold_left]. rewrite IH.
  - unfold publish. cbn [fst snd].
    destruct (column_value features c) eqn:Ec; [|reflexivity].
    cbn. apply lookup_insert_ne. intros ->.
    destruct Hl as [Hl|Hl]; [|congruence].
    apply Hl. cbn. apply list_elem_of_here.
  - destruct Hl as [Hl|Hl]; [left|now right].
    cbn in Hl. now apply not_elem_of_cons in Hl.
Qed.

(** Every gauge value after the loop was there before or is a z-score. *)
Lemma publish_values features ts m (l : string) (z : float) :
  FEATURE_MEAN_SHIFT (fold_left (publish features) ts m) !! l = Some z ->
  FEATURE_MEAN_SHIFT m !! l = Some z
  \/ (l ∈ map fst ts /\ PrimFloat.ltb z 0 = false).
Proof.
  revert m. induction ts as [|[c st] ts IH]; intros m Hz; [now left|].
  cbn [fold_left] in Hz. apply IH in Hz as [Hz|[Hin Hz]].
  - unfold publish in Hz. cbn [fst snd] in Hz.
    destruct (column_value features c) as [val|]; [|now left].
    cbn in Hz. destruct (decide (c = l)) as [->|Hne].
    + rewrite lookup_insert_eq in Hz. injection Hz as <-.
      right. split; [cbn; apply list_elem_of_here|apply z_score_not_negative].
    + rewrite lookup_insert_ne in Hz by assumption. now left.
  - right. split; [|assumption]. cbn. now apply list_elem_of_further.
Qed.

(** The loop never removes a label. *)
Lemma publish_keeps features ts m (l : string) :
  is_Some (FEATURE_MEAN_SHIFT m !! l) ->
  is_Some (FEATURE_MEAN_SHIFT (fold_left (publish features) ts m) !! l).
Proof.
  revert m. induction ts as [|[c st] ts IH]; intros m Hl; [assumption|].
  cbn [fold_left]. apply IH. unfold publish. cbn [fst snd].
  destruct (column_value features c); [|assumption].
  cbn. destruct (decide (c = l)) as [->|Hne].
  - rewrite lookup_insert_eq. eauto.
  - now rewrite lookup_insert_ne.
Qed.

(** Two registries that agree wherever the loop does not write agree
    everywhere after it. *)
Lemma publish_overwrites features ts m m' :
  (forall l, l ∉ map fst ts \/ column_value features l = None ->
             FEATURE_MEAN_SHIFT m !! l = FEATURE_MEAN_SHIFT m' !! l) ->
  FEATURE_MEAN_SHIFT (fold_left (publish features) ts m)
  = FEATURE_MEAN_SHIFT (fold_left (publish features) ts m').
Proof.
  revert m m'. induction ts as [|[c st] ts IH]; intros m m' Hsame.
  - cbn. apply map_eq. intros l. apply Hsame. left. apply not_elem_of_nil.
  - cbn [fold_left]. apply IH. intros l Hl.
    unfold publish. cbn [fst snd].
    destruct (column_value features c) as [val|] eqn:Ec.
    + cbn. destruct (decide (c = l)) as [->|Hcl].
      * now rewrite !lookup_insert_eq.
      * rewrite !lookup_insert_ne by assumption. apply Hsame.
        destruct Hl as [Hl|Hl]; [left|now right].
        cbn. intros [->|Hin]%elem_of_cons; [congruence|contradiction].
    + apply Hsame. destruct Hl as [Hl|Hl]; [|now right].
      destruct (decide (c = l)) as [->|Hcl]; [now right|left].
      cbn. intros [->|Hin]%elem_of_cons; [congruence|contradiction].
Qed.

(** The gauges after [predict], from the registry before it. *)
Lemma predict_mean_shift svc request m :
  FEATURE_MEAN_SHIFT (fst (predict svc request m))
  = match model svc with
    | Some _ => FEATURE_MEAN_SHIFT
                  (fold_left (publish (request_frame request)) (training_stats svc) m)
    | None => FEATURE_MEAN_SHIFT m
    end.
Proof.
  destruct (model svc) as [mdl|] eqn:Hm.
  - destruct (predict_gauges svc request m mdl Hm) as [_ ->].
    rewrite drift_detection_run. cbv zeta. cbn [fst].
    transitivity (FEATURE_MEAN_SHIFT
                    (fold_left (publish (request_frame request)) (training_stats svc)
                               (inc_count m))).
    + now destruct (0 <? length (training_stats svc))%nat.
    + now apply publish_overwrites.
  - now rewrite (predict_unloaded _ _ _ Hm).
Qed.

(** [predict] writes [FEATURE_MEAN_SHIFT] for labels of the profile only, it
    writes values that are not negative, and it removes no label. *)
Theorem mean_shift_writes (svc : Service) (request : PredictionRequest)
    (m : Metrics) (l : string) :
  (forall z, FEATURE_MEAN_SHIFT (fst (predict svc request m)) !! l = Some z ->
             FEATURE_MEAN_SHIFT m !! l = Some z
             \/ (l ∈ map fst (training_stats svc) /\ PrimFloat.ltb z 0 = false))
  /\ (l ∉ map fst (training_stats svc) ->
      FEATURE_MEAN_SHIFT (fst (predict svc request m)) !! l
      = FEATURE_MEAN_SHIFT m !! l)
  /\ (is_Some (FEATURE_MEAN_SHIFT m !! l) ->
      is_Some (FEATURE_MEAN_SHIFT (fst (predict svc request m)) !! l)).
Proof.
  rewrite predict_mean_shift.
  destruct (model svc); [|now auto].
  split; [|split].
  - intros z. apply publish_values.
  - intros Hl. apply publish_unwritten. now left.
  - apply publish_keeps.
Qed.

(** The drift gauges are last-write: after two calls they hold what the
    second call alone would have left. *)
Theorem drift_gauges_last_write (svc : Service) (r1 r2 : PredictionRequest)
    (m : Metrics) :
  FEATURE_MEAN_SHIFT (fst (predict svc r2 (fst (predict svc r1 m))))
  = FEATURE_MEAN_SHIFT (fst (predict svc r2 m))
  /\ (training_stats svc <> [] -> model svc <> None ->
      OOD_RATIO (fst (predict svc r2 (fst (predict svc r1 m))))
      = OOD_RATIO (fst (predict svc r2 m))).
Proof.
  split.
  - rewrite !predict_mean_shift. destruct (model svc) as [mdl|] eqn:Hm.
    + apply publish_overwrites. intros l Hl.
      rewrite predict_mean_shift, Hm. apply publish_unwritten.
      destruct Hl as [Hl|Hl]; [now left|right].
      now apply (carried_by_every_request r2 r1).
    + reflexivity.
  - intros Hts Hm. destruct (model svc) as [mdl|] eqn:Hmdl; [|contradiction].
    destruct (predict_gauges svc r2 (fst (predict svc r1 m)) mdl Hmdl) as [-> _].
    destruct (predict_gauges svc r2 m mdl Hmdl) as [-> _].
    rewrite !drift_detection_run. cbv zeta. cbn [fst].
    destruct (training_stats svc) as [|item ts]; [contradiction|].
    reflexivity.
Qed.

(** When the model raises, the call answers 500 with the text of the
    exception and counts an error; the drift gauges of the request were
    written before the model ran and stay written. *)
Theorem model_failure_keeps_drift (svc : Service) (request : PredictionRequest)
    (m : Metrics) (mdl : Model) (e : Py.exn) :
  model svc = Some mdl ->
  mdl (request_frame request) = Py.Raise e ->
  snd (predict svc request m) = Py.Raise (Py.HTTPException 500 (Py.StrOf e))
  /\ PREDICTION_ERRORS (fst (predict svc request m)) = S (PREDICTION_ERRORS m)
  /\ FEATURE_MEAN_SHIFT (fst (predict svc request m))
     = FEATURE_MEAN_SHIFT
         (fold_left (publish (request_frame request)) (training_stats svc) m)
  /\ (training_stats svc <> [] ->
      OOD_RATIO (fst (predict svc request m))
      = (float_of_nat (length (List.filter (counted (request_frame request))
                                           (training_stats svc)))
         / float_of_nat (length (training_stats svc)))%float).
Proof.
  intros Hm He.
  split; [|split; [|split]].
  - rewrite (predict_loaded _ _ _ _ Hm). cbv zeta. now rewrite He.
  - destruct (drift_detection_counters (training_stats svc) (request_frame request)
                (inc_count m)) as (_ & _ & Herr).
    rewrite (predict_loaded _ _ _ _ Hm). cbv zeta. rewrite He.
    cbn [fst PREDICTION_ERRORS observe_latency inc_errors]. now rewrite Herr.
  - now rewrite predict_mean_shift, Hm.
  - intros Hts. destruct (predict_gauges svc request m mdl Hm) as [-> _].
    rewrite drift_detection_run. cbv zeta. cbn [fst].
    destruct (training_stats svc); [contradiction|]. reflexivity.
Qed.
End ApiWrites.

Lemma fresh_batch_passes_silently_witness :
  Validate.validate_data (Some Samples.raw_file) MoreSamples.a_day_later []
  = ([Validate.ValidatingFile; Validate.ValidationPassed], Py.Return tt).
Proof.
  apply (fresh_batch_passes_silently Samples.raw_file MoreSamples.a_day_later []
           [Some 1704067200000000000; Some 1704067201000000000]
           1704067201000000000);
    [reflexivity | reflexivity | reflexivity | reflexivity | vm_compute; discriminate].
Defined.

Lemma extra_column_ignored_witness :
  Validate.validate_data
    (Some (take 2 Samples.raw_file
           ++ ("city"%string, Validate.Object [Some "London"; Some "London"]%string)
              :: drop 2 Samples.raw_file))
    Samples.two_days_later []
  = Validate.validate_data (Some (take 2 Samples.raw_file ++ drop 2 Samples.raw_file))
      Samples.two_days_later [].
Proof.
  apply extra_column_ignored; [|reflexivity].
  apply (bool_decide_unpack _). vm_compute. exact I.
Defined.

Lemma model_failure_keeps_drift_witness :
  snd (Api.predict MoreSamples.ready_failing Samples.hot_request Api.registry)
  = Py.Raise (Py.HTTPException 500
      (Py.StrOf (Py.ModelError "X has 11 features, but the regressor expects 12")))
  /\ Api.PREDICTION_ERRORS
       (fst (Api.predict MoreSamples.ready_failing Samples.hot_request Api.registry))
     = 1%nat
  /\ Api.FEATURE_MEAN_SHIFT
       (fst (Api.predict MoreSamples.ready_failing Samples.hot_request Api.registry))
     = {[ "temp"%string := 3%float; "humidity"%string := 0%float ]}
  /\ Api.OOD_RATIO
       (fst (Api.predict MoreSamples.ready_failing Samples.hot_request Api.registry))
     = 0%float.
Proof.
  destruct (model_failure_keeps_drift MoreSamples.ready_failing Samples.hot_request
              Api.registry MoreSamples.failing_model
              (Py.ModelError "X has 11 features, but the regressor expects 12")
              eq_refl eq_refl) as (Hout & Herr & Hshift & Hood).
  split; [exact Hout|]. split; [exact Herr|]. split.
  - rewrite Hshift. vm_compute. reflexivity.
  - rewrite Hood; [reflexivity|discriminate].
Defined.

Lemma validate_pass_iff_witness :
  snd (Validate.validate_data (Some Samples.raw_file) Samples.two_days_later [])
  = Py.Return tt
  <-> Validate.missing_cols Samples.raw_file = []
      /\ Validate.critical_null Samples.raw_file = false
      /\ (existsb Pandas.isnull [Some 1704067200000000000; Some 1704067201000000000]
          = false
          \/ forallb Pandas.isnull [Some 1704067200000000000; Some 1704067201000000000]
             = true).
Proof.
  apply (validate_pass_iff Samples.raw_file Samples.two_days_later []
           [Some 1704067200000000000; Some 1704067201000000000]).
  reflexivity.
Defined.

(** ** extract.py: what a run saves and how it ends *)

Section ExtractRuns.
Import Extract.

Lemma getitem_not_request v name e :
  getitem v name = inl e -> forall msg, e <> RequestException msg.
Proof.
  unfold getitem. destruct v; try (intros [= <-]; discriminate).
  destruct (List.find _ members); [discriminate|]. intros [= <-]; discriminate.
Qed.

Lemma first_not_request v e :
  first v = inl e -> forall msg, e <> RequestException msg.
Proof.
  unfold first. destruct v as [| | | |s|items|members];
    try (intros [= <-]; discriminate).
  - destruct s; [|discriminate]. intros [= <-]; discriminate.
  - destruct items; [|discriminate]. intros [= <-]; discriminate.
Qed.

Lemma iterate_not_request v e :
  iterate v = inl e -> forall msg, e <> RequestException msg.
Proof. unfold iterate. destruct v; try discriminate; intros [= <-]; discriminate. Qed.

(** A failure of a sequence of two steps is a failure of one of them. *)
Lemma bind_inl {A B} (c : error + A) (k : A -> error + B) e :
  bind c k = inl e -> c = inl e \/ exists a, c = inr a /\ k a = inl e.
Proof. destruct c as [e'|a]; cbn; [intros [= <-]; now left|right; eauto]. Qed.

Ltac not_request :=
  repeat match goal with
  | H : bind _ _ = inl _ |- _ => apply bind_inl in H as [H|(? & _ & H)]
  | H : getitem _ _ = inl _ |- _ => exact (getitem_not_request _ _ _ H)
  | H : first _ = inl _ |- _ => exact (first_not_request _ _ H)
  | H : iterate _ = inl _ |- _ => exact (iterate_not_request _ _ H)
  | H : inr _ = inl _ |- _ => discriminate H
  end.

(** Building a record raises lookup errors only. *)
Lemma build_record_not_request item now e :
  build_record item now = inl e -> forall msg, e <> RequestException msg.
Proof. unfold build_record. intros Hb. not_request. Qed.

(** Whether an item gives a record, and with which error it fails, does not
    depend on the clock. *)
Lemma build_record_clock item now now' :
  match build_record item now, build_record item now' with
  | inr r, inr r' =>
      r' = {| dt := dt r; dt_txt := dt_txt r; temp := temp r;
              feels_like := feels_like r; pressure := pressure r;
              humidity := humidity r; weather_main := weather_main r;
              weather_description := weather_description r;
              wind_speed := wind_speed r; wind_deg := wind_deg r;
              clouds_all := clouds_all r; collection_time := now' |}
      /\ collection_time r = now
  | inl e, inl e' => e = e'
  | _, _ => False
  end.
Proof.
  unfold build_record.
  repeat match goal with
  | |- context [bind ?c _] =>
      match c with
      | context [bind _ _] => fail 1
      | _ => destruct c as [?e|?v]; cbn [bind]; [reflexivity|]
      end
  end.
  split; reflexivity.
Qed.

Lemma build_record_fails_always item now now' e :
  build_record item now = inl e -> build_record item now' = inl e.
Proof.
  intros Hb. pose proof (build_record_clock item now now') as Hc.
  rewrite Hb in Hc. destruct (build_record item now'); [congruence|contradiction].
Qed.

Lemma build_records_not_request items clock k e :
  build_records items clock k = inl e -> forall msg, e <> RequestException msg.
Proof.
  revert k. induction items as [|item items IH]; intros k; cbn [build_records];
    [discriminate|].
  intros Hb. apply bind_inl in Hb as [Hb|(r & _ & Hb)].
  - exact (build_record_not_request _ _ _ Hb).
  - apply bind_inl in Hb as [Hb|(rs & _ & Hb)]; [eauto|discriminate].
Qed.

(** The loop gives one record per item, in the order of the items; the
    record of item [i] carries the time of call [k + i] of the clock. *)
Lemma build_records_lookup items clock k records :
  build_records items clock k = inr records ->
  length records = length items
  /\ forall i item, items !! i = Some item ->
       exists r, records !! i = Some r
                 /\ build_record item (clock (k + i)%nat) = inr r.
Proof.
  revert k records. induction items as [|item items IH]; intros k records;
    cbn [build_records].
  - intros [= <-]. split; [reflexivity|]. intros i item Hi. discriminate.
  - destruct (build_record item (clock k)) as [e|r] eqn:Hr; [discriminate|].
    cbn [bind].
    destruct (build_records items clock (S k)) as [e|rs] eqn:Hrs; [discriminate|].
    cbn [bind]. intros [= <-].
    destruct (IH _ _ Hrs) as [Hlen Hat].
    split; [cbn; now rewrite Hlen|].
    intros [|i] it Hi.
    + injection Hi as <-. exists r. rewrite Nat.add_0_r. now split.
    + destruct (Hat i it Hi) as (r' & Hr' & Hb). exists r'. split; [exact Hr'|].
      now replace (k + S i)%nat with (S k + i)%nat by lia.
Qed.

(** When every item gives a record, the loop runs to its end. *)
Lemma build_records_total items clock k :
  Forall (fun item => exists r, build_record item 0 = inr r) items ->
  exists records, build_records items clock k = inr records.
Proof.
  revert k. induction items as [|item items IH]; intros k Hall;
    cbn [build_records]; [eauto|].
  apply Forall_cons in Hall as [[r0 Hr0] Hall].
  pose proof (build_record_clock item 0 (clock k)) as Hc. rewrite Hr0 in Hc.
  destruct (build_record item (clock k)) as [e|r]; [contradiction|]. cbn [bind].
  destruct (IH (S k) Hall) as [rs ->]. cbn [bind]. eauto.
Qed.

(** The loop stops at the first item that gives no record, with its error. *)
Lemma build_records_first_failure before item after clock k e :
  Forall (fun item => exists r, build_record item 0 = inr r) before ->
  build_record item 0 = inl e ->
  build_records (before ++ item :: after) clock k = inl e.
Proof.
  revert k. induction before as [|b before IH]; intros k Hall He;
    cbn [app build_records].
  - now rewrite (build_record_fails_always _ _ (clock k) _ He).
  - apply Forall_cons in Hall as [[r0 Hr0] Hall].
    pose proof (build_record_clock b 0 (clock k)) as Hc. rewrite Hr0 in Hc.
    destruct (build_record b (clock k)) as [e'|r]; [contradiction|]. cbn [bind].
    now rewrite (IH (S k) Hall He).
Qed.

(** The payload has the expected shape: the file holds one record per
    forecast item, in the order of the payload; the record of item [i] is
    built from that item and stamped with the time of call [i] of the clock,
    and the file is named by the call after the last record. *)
Theorem fetch_saves_every_item (api_key : option string) (data : json)
    (items : list json) (clock : nat -> Z) :
  no_key api_key = false ->
  getitem data "list" = inr (JArray items) ->
  Forall (fun item => exists r, build_record item 0 = inr r) items ->
  exists records,
    fetch_weather_data api_key (inr data) clock
    = {| printed := [SavedDataTo (clock (length items))];
         written := Some (clock (length items), records);
         result := Returned (clock (length items)) |}
    /\ length records = length items
    /\ forall i item, items !! i = Some item ->
         exists r, records !! i = Some r
                   /\ build_record item (clock i) = inr r
                   /\ collection_time r = clock i.
Proof.
  intros Hkey Hlist Hall.
  destruct (build_records_total items clock 0 Hall) as [records Hrs].
  destruct (build_records_lookup _ _ _ _ Hrs) as [Hlen Hat].
  exists records. split; [|split; [exact Hlen|]].
  - unfold fetch_weather_data. rewrite Hkey. cbn [bind]. rewrite Hlist.
    cbn [bind iterate]. rewrite Hrs. now rewrite Hlen.
  - intros i item Hi. destruct (Hat i item Hi) as (r & Hr & Hb).
    exists r. split; [exact Hr|]. split; [exact Hb|].
    pose proof (build_record_clock item (clock i) (clock i)) as Hc.
    cbn [Nat.add] in Hb. rewrite Hb in Hc. tauto.
Qed.

(** The four ways a run can go. *)
Lemma fetch_cases (api_key : option string) (response : error + json)
    (clock : nat -> Z) :
  (no_key api_key = true
   /\ fetch_weather_data api_key response clock
      = {| printed := [ApiKeyNotFound]; written := None; result := Exited 1 |})
  \/ (no_key api_key = false
      /\ exists msg, response = inl (RequestException msg)
         /\ fetch_weather_data api_key response clock
            = {| printed := [ErrorFetchingData msg]; written := None;
                 result := Exited 1 |})
  \/ (no_key api_key = false
      /\ (forall msg, response <> inl (RequestException msg))
      /\ exists e, (forall msg, e <> RequestException msg)
         /\ fetch_weather_data api_key response clock
            = {| printed := []; written := None; result := Raised e |})
  \/ (no_key api_key = false
      /\ (forall msg, response <> inl (RequestException msg))
      /\ exists records,
           fetch_weather_data api_key response clock
           = {| printed := [SavedDataTo (clock (length records))];
                written := Some (clock (length records), records);
                result := Returned (clock (length records)) |}).
Proof.
  unfold fetch_weather_data.
  destruct (no_key api_key); [left; now split|right].
  destruct response as [e|data]; cbn [bind].
  - destruct e as [msg|k| |].
    + left. split; [reflexivity|]. exists msg. now split.
    + right; left. split; [reflexivity|]. split; [discriminate|].
      exists (KeyError k). split; [discriminate|reflexivity].
    + right; left. split; [reflexivity|]. split; [discriminate|].
      exists IndexError. split; [discriminate|reflexivity].
    + right; left. split; [reflexivity|]. split; [discriminate|].
      exists TypeError. split; [discriminate|reflexivity].
  - right. destruct (bind (getitem data "list") _) as [e|records] eqn:Hrun.
    + left. split; [reflexivity|]. split; [discriminate|]. exists e.
      assert (Hne : forall msg, e <> RequestException msg).
      { apply bind_inl in Hrun as [Hrun|(l & _ & Hrun)];
          [exact (getitem_not_request _ _ _ Hrun)|].
        apply bind_inl in Hrun as [Hrun|(items & _ & Hrun)];
          [exact (iterate_not_request _ _ Hrun)|].
        exact (build_records_not_request _ _ _ _ Hrun). }
      split; [exact Hne|].
      destruct e as [msg| | |]; [now destruct (Hne msg)| | |]; reflexivity.
    + right. split; [reflexivity|]. split; [discriminate|]. now exists records.
Qed.

(** How a run can end. It exits with status 1 exactly when the key is not
    set or the request fails, and it exits with no other status; a file is
    written exactly when it returns, and then its name is what is returned;
    and an error raised while the payload is read is not handled: it leaves
    the function, nothing written and nothing printed. *)
Theorem fetch_ends (api_key : option string) (response : error + json)
    (clock : nat -> Z) :
  (result (fetch_weather_data api_key response clock) = Exited 1
   <-> no_key api_key = true \/ exists msg, response = inl (RequestException msg))
  /\ (forall code, result (fetch_weather_data api_key response clock) = Exited code ->
                   code = 1)
  /\ (forall filename,
        result (fetch_weather_data api_key response clock) = Returned filename
        <-> exists records,
              written (fetch_weather_data api_key response clock)
              = Some (filename, records))
  /\ (forall e, result (fetch_weather_data api_key response clock) = Raised e ->
        (forall msg, e <> RequestException msg)
        /\ written (fetch_weather_data api_key response clock) = None
        /\ printed (fetch_weather_data api_key response clock) = []).
Proof.
  destruct (fetch_cases api_key response clock)
    as [[Hkey ->]|[(Hkey & msg & Hresp & ->)|[(Hkey & Hresp & e & He & ->)
       |(Hkey & Hresp & records & ->)]]]; cbn [result written printed].
  - split; [split; [now left|reflexivity]|].
    split; [now intros code [= <-]|].
    split; [intros filename; split; [discriminate|intros [records Hw]; discriminate]|].
    discriminate.
  - split; [split; [right; eauto|reflexivity]|].
    split; [now intros code [= <-]|].
    split; [intros filename; split; [discriminate|intros [records Hw]; discriminate]|].
    discriminate.
  - split; [split; [discriminate|]|].
    { intros [Hk|[msg Hm]]; [congruence|now destruct (Hresp msg)]. }
    split; [discriminate|].
    split; [intros filename; split; [discriminate|intros [records Hw]; discriminate]|].
    intros e' [= <-]. now split.
  - split; [split; [discriminate|]|].
    { intros [Hk|[msg Hm]]; [congruence|now destruct (Hresp msg)]. }
    split; [discriminate|].
    split; [|discriminate].
    intros filename; split.
    + intros [= <-]. eauto.
    + intros [recs [= -> _]]. reflexivity.
Qed.

(** One item of unexpected shape loses the whole batch: the error of the
    first such item leaves the function, and the records built before it are
    not saved. *)
Theorem malformed_item_loses_batch (api_key : option string) (data : json)
    (before after : list json) (item : json) (e : error) (clock : nat -> Z) :
  no_key api_key = false ->
  getitem data "list" = inr (JArray (before ++ item :: after)) ->
  Forall (fun item => exists r, build_record item 0 = inr r) before ->
  build_record item 0 = inl e ->
  fetch_weather_data api_key (inr data) clock
  = {| printed := []; written := None; result := Raised e |}.
Proof.
  intros Hkey Hlist Hall He.
  unfold fetch_weather_data. rewrite Hkey. cbn [bind]. rewrite Hlist.
  cbn [bind iterate].
  rewrite (build_records_first_failure before item after clock 0 e Hall He).
  pose proof (build_record_not_request _ _ _ He) as Hne.
  destruct e as [msg| | |]; [now destruct (Hne msg)| | |]; reflexivity.
Qed.
End ExtractRuns.

Lemma fetch_saves_every_item_witness :
  exists records,
    Extract.fetch_weather_data (Some "0123456789abcdef"%string)
      (inr PipelineSamples.payload) PipelineSamples.clock
    = {| Extract.printed := [Extract.SavedDataTo (PipelineSamples.clock 2)];
         Extract.written := Some (PipelineSamples.clock 2, records);
         Extract.result := Extract.Returned (PipelineSamples.clock 2) |}
    /\ length records = 2%nat
    /\ forall i item,
         [PipelineSamples.first_item; PipelineSamples.second_item] !! i = Some item ->
         exists r, records !! i = Some r
                   /\ Extract.build_record item (PipelineSamples.clock i) = inr r
                   /\ Extract.collection_time r = PipelineSamples.clock i.
Proof.
  apply (fetch_saves_every_item (Some "0123456789abcdef"%string)
           PipelineSamples.payload
           [PipelineSamples.first_item; PipelineSamples.second_item]
           PipelineSamples.clock); [reflexivity|reflexivity|].
  constructor; [eexists; reflexivity|].
  constructor; [eexists; reflexivity|]. constructor.
Defined.

Lemma malformed_item_loses_batch_witness :
  Extract.fetch_weather_data (Some "0123456789abcdef"%string)
    (inr PipelineSamples.payload_without_wind) PipelineSamples.clock
  = {| Extract.printed := []; Extract.written := None;
       Extract.result := Extract.Raised (Extract.KeyError (Extract.Name "wind")) |}.
Proof.
  apply (malformed_item_loses_batch (Some "0123456789abcdef"%string)
           PipelineSamples.payload_without_wind
           [PipelineSamples.first_item] [PipelineSamples.second_item]
           PipelineSamples.windless_item);
    [reflexivity|reflexivity| |reflexivity].
  constructor; [eexists; reflexivity|]. constructor.
Defined.

(** ** The files between the stages *)

Section Schemas.

(** A raw file with at least one record has every column the validator
    expects, so the schema check cannot fail on it: the validator passes it
    exactly when no critical cell is missing and the collection time can be
    read. *)
Theorem raw_file_meets_schema (records : list Extract.record)
    (df : Validate.DataFrame) (now : Z) (log : list Validate.line) :
  records <> [] ->
  Validate.columns df = Extract.csv_header records ->
  Validate.missing_cols df = []
  /\ (snd (Validate.validate_data (Some df) now log) = Py.Return tt
      <-> Validate.critical_null df = false /\ freshness_readable df = true).
Proof.
  intros Hne Hcols.
  assert (Hm : Validate.missing_cols df = []).
  { unfold Validate.missing_cols, Validate.has_column. rewrite Hcols.
    destruct records; [contradiction|]. reflexivity. }
  split; [exact Hm|].
  rewrite validate_returns. tauto.
Qed.
End Schemas.

Lemma raw_file_meets_schema_witness :
  Validate.missing_cols Samples.raw_file = []
  /\ (snd (Validate.validate_data (Some Samples.raw_file) Samples.two_days_later [])
      = Py.Return tt
      <-> Validate.critical_null Samples.raw_file = false
          /\ freshness_readable Samples.raw_file = true).
Proof.
  refine (raw_file_meets_schema
            [{| Extract.dt := Extract.JInt 1704067200;
                Extract.dt_txt := Extract.JString "2024-01-01 00:00:00";
                Extract.temp := Extract.JFloat 18;
                Extract.feels_like := Extract.JFloat 17.5;
                Extract.pressure := Extract.JInt 1013;
                Extract.humidity := Extract.JInt 60;
                Extract.weather_main := Extract.JString "Clouds";
                Extract.weather_description := Extract.JString "broken clouds";
                Extract.wind_speed := Extract.JFloat 3.5;
                Extract.wind_deg := Extract.JInt 210;
                Extract.clouds_all := Extract.JInt 75;
                Extract.collection_time := 1704067200000000000 |}]
            Samples.raw_file Samples.two_days_later [] _ eq_refl).
  discriminate.
Defined.

(** ** models/train.py: the columns that reach the regressor *)

Section TrainColumns.
Import Train.
Context {C : Type}.
Implicit Types df : list (string * C).

Lemma find_column df col :
  col ∈ map fst df ->
  exists c, List.find (fun c => String.eqb (fst c) col) df = Some (col, c).
Proof.
  induction df as [|[k v] df IH]; cbn [map fst List.find].
  - intros Hin. now apply elem_of_nil in Hin.
  - intros Hin. destruct (String.eqb k col) eqn:E.
    + apply String.eqb_eq in E as ->. eauto.
    + apply elem_of_cons in Hin as [->|Hin]; [|now apply IH].
      now rewrite String.eqb_refl in E.
Qed.

Lemma none_absent df (cols : list string) :
  (forall col, col ∈ cols -> col ∈ map fst df) ->
  List.filter (fun col => negb (bool_decide (col ∈ map fst df))) cols = [].
Proof.
  induction cols as [|col cols IH]; intros Hall; [reflexivity|]. cbn [List.filter].
  rewrite bool_decide_eq_true_2 by (apply Hall; apply list_elem_of_here).
  cbn [negb]. apply IH. intros c Hc. apply Hall. now apply list_elem_of_further.
Qed.

Lemma columns_found df (cols : list string) :
  (forall col, col ∈ cols -> col ∈ map fst df) ->
  map fst (omap (fun col => List.find (fun c => String.eqb (fst c) col) df) cols)
  = cols.
Proof.
  induction cols as [|col cols IH]; intros Hall; [reflexivity|].
  destruct (find_column df col) as [c Hc]; [apply Hall; apply list_elem_of_here|].
  change (omap ?f (?a :: ?k))
    with (match f a with Some y => y :: omap f k | None => omap f k end).
  cbv beta. rewrite Hc. cbn [map fst]. f_equal.
  apply IH. intros c' Hc'. apply Hall. now apply list_elem_of_further.
Qed.

(** [df[cols]] with every name in the frame: the columns called [cols], in
    that order. *)
Lemma getitem_list_present df (cols : list string) :
  (forall col, col ∈ cols -> col ∈ map fst df) ->
  exists X, getitem_list df cols = Py.Return X /\ map fst X = cols.
Proof.
  intros Hall. unfold getitem_list. rewrite (none_absent df cols Hall).
  eexists. split; [reflexivity|]. now apply columns_found.
Qed.

Lemma List_filter_sublist {A} (p : A -> bool) (l : list A) :
  List.filter p l `sublist_of` l.
Proof.
  induction l as [|a l IH]; cbn [List.filter]; [constructor|].
  destruct (p a); [now apply sublist_skip|now apply sublist_cons].
Qed.

Lemma available_features_present df col :
  col ∈ available_features df -> col ∈ map fst df.
Proof.
  unfold available_features. intros Hin. apply list_elem_of_In in Hin.
  apply filter_In in Hin as [_ Hin]. now apply bool_decide_eq_true in Hin.
Qed.

(** Every feature is in the frame exactly when the list comes out whole. *)
Lemma available_features_all df :
  length (available_features df) = length features
  <-> forall f, f ∈ features -> f ∈ map fst df.
Proof.
  unfold available_features. split.
  - intros Hlen f Hf.
    destruct (bool_decide (f ∈ map fst df)) eqn:E;
      [now apply bool_decide_eq_true in E|].
    exfalso. apply list_elem_of_In in Hf.
    assert (Hlt : (length (List.filter (fun f => bool_decide (f ∈ map fst df)) features)
                   < length features)%nat); [|lia].
    clear Hlen. induction features as [|g gs IH]; [destruct Hf|].
    cbn [List.filter]. destruct Hf as [->|Hf].
    + rewrite E. pose proof (List.filter_length_le
                               (fun f => bool_decide (f ∈ map fst df)) gs).
      cbn [length]. lia.
    + specialize (IH Hf). destruct (bool_decide (g ∈ map fst df)); cbn [length]; lia.
  - intros Hall. f_equal.
    induction features as [|g gs IH]; [reflexivity|]. cbn [List.filter].
    rewrite bool_decide_eq_true_2 by (apply Hall; apply list_elem_of_here).
    f_equal. apply IH. intros f Hf. apply Hall. now apply list_elem_of_further.
Qed.

Lemma available_features_whole df :
  (forall f, f ∈ features -> f ∈ map fst df) -> available_features df = features.
Proof.
  unfold available_features. intros Hall.
  induction features as [|g gs IH]; [reflexivity|]. cbn [List.filter].
  rewrite bool_decide_eq_true_2 by (apply Hall; apply list_elem_of_here).
  f_equal. apply IH. intros f Hf. apply Hall. now apply list_elem_of_further.
Qed.

(** How the selection of lines 59-64 ends. A missing feature is reported
    and left out, and training goes on with the features that are there, in
    the order of the feature list; a missing target is a [KeyError]. The
    warning is printed exactly when a feature is missing. *)
Theorem design_columns df (log : list line) :
  fst (design df log)
  = (if bool_decide (Forall (fun f => f ∈ map fst df) features) then log
     else log ++ [MissingFeatures (available_features df)])
  /\ (target ∈ map fst df ->
      exists X y, snd (design df log) = Py.Return (X, y)
                  /\ map fst X = available_features df
                  /\ map fst X `sublist_of` features
                  /\ getitem df target = Py.Return y)
  /\ (target ∉ map fst df -> snd (design df log) = Py.Raise (Py.KeyError [target])).
Proof.
  destruct (getitem_list_present df (available_features df)
              (available_features_present df)) as (X & HX & Hcols).
  unfold design, Py.bind, Py.when, Py.lift, Py.ret, Py.modify. rewrite HX.
  assert (Hlog : fst (if (length (available_features df) <? length features)%nat
                      then (log ++ [MissingFeatures (available_features df)],
                            Py.Return tt)
                      else (log, Py.Return tt))
                 = if bool_decide (Forall (fun f => f ∈ map fst df) features) then log
                   else log ++ [MissingFeatures (available_features df)]).
  { destruct (length (available_features df) <? length features)%nat eqn:E.
    - apply Nat.ltb_lt in E. rewrite bool_decide_eq_false_2; [reflexivity|].
      intros Hall. rewrite Forall_forall in Hall.
      apply available_features_all in Hall. lia.
    - apply Nat.ltb_ge in E. rewrite bool_decide_eq_true_2; [reflexivity|].
      apply Forall_forall. apply available_features_all.
      pose proof (List.filter_length_le
                    (fun f => bool_decide (f ∈ map fst df)) features) as Hle.
      unfold available_features in *. lia. }
  split; [|split].
  - rewrite <- Hlog.
    destruct (length (available_features df) <? length features)%nat; cbn [fst snd];
      now destruct (getitem df target).
  - intros Ht. destruct (find_column df target Ht) as [y Hy].
    exists X, y. unfold getitem. rewrite Hy. cbn [snd].
    split; [now destruct (length (available_features df) <? length features)%nat|].
    split; [exact Hcols|]. split; [|reflexivity].
    rewrite Hcols. unfold available_features. apply List_filter_sublist.
  - intros Ht. unfold getitem.
    destruct (List.find _ df) as [[k v]|] eqn:E.
    + exfalso. apply Ht. apply find_some in E as [Hin Hk]. cbn [fst] in Hk.
      apply String.eqb_eq in Hk as <-. apply list_elem_of_fmap.
      exists (k, v). split; [reflexivity|now apply list_elem_of_In].
    + now destruct (length (available_features df) <? length features)%nat.
Qed.

(** A frame with the columns of a processed file goes to the regressor
    whole: no warning, and the design matrix has exactly the columns, in the
    order, that [predict] passes to the model for every request. *)
Theorem training_matches_serving df (request : Api.PredictionRequest)
    (log : list line) :
  (forall col, col ∈ processed_columns -> col ∈ map fst df) ->
  exists X y,
    design df log = (log, Py.Return (X, y))
    /\ map fst X = map fst (Api.request_frame request)
    /\ getitem df target = Py.Return y.
Proof.
  intros Hcols.
  assert (Hfeat : forall f, f ∈ features -> f ∈ map fst df).
  { intros f Hf. apply Hcols. revert f Hf. apply Forall_forall.
    apply (bool_decide_unpack _). vm_compute. exact I. }
  assert (Htarget : target ∈ map fst df).
  { apply Hcols. apply (bool_decide_unpack _). vm_compute. exact I. }
  destruct (getitem_list_present df features Hfeat) as (X & HX & HXcols).
  destruct (find_column df target Htarget) as [y Hy].
  exists X, y.
  unfold design, Py.bind, Py.when, Py.lift, Py.ret, Py.modify.
  rewrite (available_features_whole df Hfeat), Nat.ltb_irrefl, HX.
  unfold getitem. rewrite Hy. cbn [snd].
  split; [reflexivity|]. split; [|reflexivity].
  rewrite HXcols. reflexivity.
Qed.
End TrainColumns.

Lemma training_matches_serving_witness :
  exists X y,
    Train.design PipelineSamples.processed_file []
    = ([], Py.Return (X, y))
    /\ map fst X = map fst (Api.request_frame Samples.hot_request)
    /\ Train.getitem PipelineSamples.processed_file Train.target = Py.Return y.
Proof.
  apply (training_matches_serving PipelineSamples.processed_file Samples.hot_request []).
  intros col Hcol. exact Hcol.
Defined.

(** A file from before the rolling statistics were added still trains: the
    warning is printed and the regressor sees nine columns. *)
Example old_file_trains_on_fewer_columns :
  exists X y,
    Train.design PipelineSamples.old_processed_file []
    = ([Train.MissingFeatures
          ["temp"; "humidity"; "pressure"; "wind_speed"; "clouds_all";
           "hour"; "day_of_week"; "month"; "temp_lag_1"]%string],
       Py.Return (X, y))
    /\ length X = 9%nat.
Proof. do 2 eexists. split; [vm_compute; reflexivity|reflexivity]. Qed.
